(** * SAEP auto-parts inventory: a shallow embedding of [app.py]

    The Flask application of the repository is a set of route handlers
    over a session, a flash-message queue and three MySQL tables.  This
    file embeds the handlers as functions in a state-and-exception monad
    over an explicit world, and proves the properties that the
    specification states about them.

    Layout:
    - [Py]       the Python builtins the handlers use ([int], [float],
                 [str.upper], f-string formatting of ints), as an
                 interpreter the handlers receive, and CPython on ASCII
                 text;
    - [Model]    the world (tables, session, flashes, connection trace),
                 the environment (the interpreter, connection and
                 statement failures, the clock) and the monad;
    - [App]      the handlers, one definition per [def] of [app.py];
    - theorems.  *)

From Stdlib Require Import ZArith Ascii String List Lia Bool.
From stdpp Require Import base option gmap strings list.

Local Open Scope string_scope.
Local Open Scope list_scope.
Local Open Scope Z_scope.

(* ===================================================================== *)
(** * Python builtins *)
(* ===================================================================== *)

Module Py.

(** The handlers call four builtins of Python: [int] and [float] on a
    form text, [str.upper] on a form text and the formatting of an [int]
    in an f-string.  What they answer on a text with characters outside
    ASCII (digits and spaces of other scripts, case mappings) is decided
    by the Unicode tables of the running interpreter.  The handlers are
    therefore written over an interpreter they receive, and every general
    statement holds for every interpreter. *)

(** A float: NaN, an infinity, or the finite binary value
    (-1)^neg * mantissa * 2^exponent. *)
Inductive pyfloat :=
| FNan
| FInf (neg : bool)
| FFinite (neg : bool) (mantissa : Z) (exponent : Z).

Record Interpreter := {
  (** [int(s)]: the number, or the message of the [ValueError] *)
  py_int : string -> string + Z;
  (** [float(s)]: the float, or the message of the [ValueError] *)
  py_float : string -> string + pyfloat;
  (** [s.upper()] *)
  py_upper : string -> string;
  (** [str(n)], as an f-string prints an [int] *)
  py_str : Z -> string
}.

(** [x <= 0] on floats.  NaN compares false; both zeros compare true. *)
Definition float_le_zero (x : pyfloat) : bool :=
  match x with
  | FNan => false
  | FInf neg => neg
  | FFinite neg m e => neg || (m =? 0)
  end.

(** [repr(x)] is "nan", "inf" or "-inf" *)
Definition float_is_finite (x : pyfloat) : bool :=
  match x with
  | FFinite _ _ _ => true
  | _ => false
  end.

(** ** CPython on ASCII text

    What follows is the interpreter on texts made of ASCII characters,
    which is enough to run the handlers on sample requests.  A text is a
    byte string; a byte above 127 belongs to a character these
    definitions do not know, and they treat it as an ordinary symbol. *)

Definition code (c : ascii) : N := N_of_ascii c.

Definition is_digit (c : ascii) : bool :=
  ((48 <=? code c) && (code c <=? 57))%N.

Definition digit_value (c : ascii) : Z := Z.of_N (code c) - 48.

(** The whitespace that [int] and [float] skip at both ends of an ASCII
    text: TAB, LF, VT, FF, CR and the space. *)
Definition is_space (c : ascii) : bool :=
  (((9 <=? code c) && (code c <=? 13)) || (code c =? 32))%N.

Definition is_lower (c : ascii) : bool :=
  ((97 <=? code c) && (code c <=? 122))%N.

Definition is_upper (c : ascii) : bool :=
  ((65 <=? code c) && (code c <=? 90))%N.

Definition upper_char (c : ascii) : ascii :=
  if is_lower c then ascii_of_N (code c - 32) else c.

Definition lower_char (c : ascii) : ascii :=
  if is_upper c then ascii_of_N (code c + 32) else c.

(** [s.upper()] for an ASCII text: the letters a-z become A-Z. *)
Fixpoint ascii_upper (s : string) : string :=
  match s with
  | EmptyString => EmptyString
  | String c r => String (upper_char c) (ascii_upper r)
  end.

(** [s.lower()] for an ASCII text. *)
Fixpoint ascii_lower (s : string) : string :=
  match s with
  | EmptyString => EmptyString
  | String c r => String (lower_char c) (ascii_lower r)
  end.

Fixpoint lstrip (s : string) : string :=
  match s with
  | String c r => if is_space c then lstrip r else s
  | EmptyString => EmptyString
  end.

(** [rstrip] drops a character when it is a space and everything after
    it has been dropped too. *)
Fixpoint rstrip (s : string) : string :=
  match s with
  | EmptyString => EmptyString
  | String c r =>
      match rstrip r with
      | EmptyString => if is_space c then EmptyString else String c EmptyString
      | r' => String c r'
      end
  end.

Definition strip (s : string) : string := rstrip (lstrip s).

(** The longest prefix of the form digit (["_"] digit)*, as the list of
    its digits, and what follows it.  This is the [digitpart] of the
    Python grammar of integer and float literals in strings: a single
    underscore is allowed between two digits and nowhere else. *)
Fixpoint scan_digits (s : string) : list Z * string :=
  match s with
  | EmptyString => ([], EmptyString)
  | String c r =>
      if is_digit c then
        match r with
        | String "_" (String d _ as r1) =>
            if is_digit d then
              let '(ds, rest) := scan_digits r1 in (digit_value c :: ds, rest)
            else ([digit_value c], r)
        | _ => let '(ds, rest) := scan_digits r in (digit_value c :: ds, rest)
        end
      else ([], s)
  end.

(** Decimal value of a list of digits, most significant first. *)
Definition digits_value (ds : list Z) : Z :=
  fold_left (fun acc d => 10 * acc + d) ds 0.

(** An optional sign: [true] for "-". *)
Definition scan_sign (s : string) : bool * string :=
  match s with
  | String "-" r => (true, r)
  | String "+" r => (false, r)
  | _ => (false, s)
  end.

(** Decimal text of a number. *)
Definition digit_char (d : Z) : ascii := ascii_of_N (Z.to_N (48 + d)).

Fixpoint str_pos_fuel (fuel : nat) (n : Z) (acc : string) : string :=
  match fuel with
  | O => acc
  | S f =>
      let acc' := String (digit_char (n mod 10)) acc in
      if n <? 10 then acc' else str_pos_fuel f (n / 10) acc'
  end.

(** [str(n)] *)
Definition str (n : Z) : string :=
  if n <? 0
  then String "-" (str_pos_fuel (S (Z.to_nat (Z.log2 (- n)))) (- n) EmptyString)
  else str_pos_fuel (S (Z.to_nat (Z.log2 n))) n EmptyString.

(** [repr(s)] for an ASCII text: quotes around the text, backslash
    escapes for the quote, the backslash and the control characters. *)
Definition hex_char (d : N) : ascii :=
  if (d <? 10)%N then ascii_of_N (48 + d) else ascii_of_N (87 + d).

Definition contains (c : ascii) (s : string) : bool :=
  existsb (Ascii.eqb c) (list_ascii_of_string s).

Definition repr_char (quote : ascii) (c : ascii) : string :=
  if Ascii.eqb c quote || (code c =? 92)%N then String "\" (String c "")
  else if (code c =? 9)%N then "\t"
  else if (code c =? 10)%N then "\n"
  else if (code c =? 13)%N then "\r"
  else if (code c <? 32)%N || (code c =? 127)%N then
    String "\" (String "x" (String (hex_char (code c / 16))
                              (String (hex_char (code c mod 16)) "")))
  else String c "".

Definition ascii_repr (s : string) : string :=
  let quote : ascii :=
    if contains "'" s && negb (contains "034" s) then "034"%char else "'"%char in
  String quote
    (String.concat "" (map (repr_char quote) (list_ascii_of_string s))
     +:+ String quote "").

(** [sys.get_int_max_str_digits()], at its default. *)
Definition max_str_digits : nat := 4300.

Definition invalid_literal (s : string) : string :=
  "invalid literal for int() with base 10: "
  +:+ String.substring 0 200 (ascii_repr s).

Definition exceeds_limit (digits : nat) : string :=
  "Exceeds the limit (4300 digits) for integer string conversion: value has "
  +:+ str (Z.of_nat digits)
  +:+ " digits; use sys.set_int_max_str_digits() to increase the limit".

(** [int(s)] for an ASCII text, base 10: the number, or the message of
    the [ValueError]. *)
Definition ascii_int (s : string) : string + Z :=
  let '(neg, r) := scan_sign (strip s) in
  match scan_digits r with
  | (d :: ds, rest) =>
      match rest with
      | String "_" _ => inl (invalid_literal s)
      | _ =>
          if (max_str_digits <? length (d :: ds))%nat
          then inl (exceeds_limit (length (d :: ds)))
          else
            match rest with
            | EmptyString =>
                let v := digits_value (d :: ds) in
                inr (if neg then - v else v)
            | _ => inl (invalid_literal s)
            end
      end
  | _ => inl (invalid_literal s)
  end.

(** The integer nearest to n/d, ties to the even one (n >= 0, d > 0). *)
Definition round_half_even (n d : Z) : Z :=
  let q := n / d in
  match 2 * (n mod d) ?= d with
  | Lt => q
  | Gt => q + 1
  | Eq => if Z.even q then q else q + 1
  end.

(** The binary64 nearest to the positive rational n/d: 53 bits of
    mantissa, exponent of the last bit at least -1074, overflow to an
    infinity from 2^1024 on. *)
Definition binary64 (neg : bool) (n d : Z) : pyfloat :=
  if n =? 0 then FFinite neg 0 0
  else
    let g := Z.log2 n - Z.log2 d in
    (* 2^g' <= n/d < 2^(g'+1) *)
    let below := if 0 <=? g then n <? d * 2 ^ g else n * 2 ^ (- g) <? d in
    let g' := if below then g - 1 else g in
    let e := Z.max (g' - 52) (-1074) in
    let m := if 0 <=? e then round_half_even n (d * 2 ^ e)
             else round_half_even (n * 2 ^ (- e)) d in
    if m =? 0 then FFinite neg 0 0
    else if 2 ^ (1024 - e) <=? m then FInf neg
    else if m =? 2 ^ 53 then FFinite neg (2 ^ 52) (e + 1)
    else FFinite neg m e.

Definition scan_exponent (s : string) : option (Z * string) :=
  match s with
  | String c r =>
      if (code c =? 101)%N || (code c =? 69)%N then   (* e, E *)
        let '(neg, r1) := scan_sign r in
        match scan_digits r1 with
        | (d :: ds, rest) =>
            let v := digits_value (d :: ds) in
            Some (if neg then - v else v, rest)
        | _ => None
        end
      else Some (0, s)
  | EmptyString => Some (0, s)
  end.

Definition not_a_float (s : string) : string :=
  "could not convert string to float: " +:+ ascii_repr s.

(** [float(s)] for an ASCII text: the float, or the message of the
    [ValueError]. *)
Definition ascii_float (s : string) : string + pyfloat :=
  let '(neg, r) := scan_sign (strip s) in
  let l := ascii_lower r in
  if String.eqb l "inf" || String.eqb l "infinity" then inr (FInf neg)
  else if String.eqb l "nan" then inr FNan
  else
    let '(ip, r1) := scan_digits r in
    let '(fp, r2) :=
      match r1 with
      | String "." r' => scan_digits r'
      | _ => ([], r1)
      end in
    match ip ++ fp with
    | [] => inl (not_a_float s)
    | ds =>
        match scan_exponent r2 with
        | Some (e, EmptyString) =>
            let e10 := e - Z.of_nat (length fp) in
            let m10 := digits_value ds in
            inr (if 0 <=? e10 then binary64 neg (m10 * 10 ^ e10) 1
                 else binary64 neg m10 (10 ^ (- e10)))
        | _ => inl (not_a_float s)
        end
    end.

Definition ascii : Interpreter :=
  {| py_int := ascii_int; py_float := ascii_float;
     py_upper := ascii_upper; py_str := str |}.

End Py.

(* ===================================================================== *)
(** * The world the handlers run in *)
(* ===================================================================== *)

Module Model.

(** ** Tables

    [autopeca] is keyed by its primary key ID_PECA; [movimentacoes] is
    append-only, newest last.  A column holds the value the statement
    gives it: the ranges and conversions of the SQL engine are not part
    of the model. *)

Record autopeca_row := {
  NOME_PECA : string;
  DESCRICAO : string;
  ESTOQUE : Z;
  ESTOQUE_MINIMO : Z;
  NUM_SERIAL : string;
  COMPATIBILIDADE : string;
  PRECO : Py.pyfloat
}.

(** A value kept in the session dictionary. *)
Inductive pyval :=
| VInt (n : Z)
| VStr (s : string).

Record movimentacao_row := {
  m_ID_USUARIO : pyval;
  m_ID_PECA : Z;
  DATA_MOVI : string;
  QUANTIDADE : Z;
  TIPO_MOVI : string
}.

Record usuario_row := {
  EMAIL : string;
  SENHA : string;
  NOME : string
}.

Record Database := {
  autopeca : gmap Z autopeca_row;
  autopeca_auto_increment : Z;
  movimentacoes : list movimentacao_row;
  usuario : gmap Z usuario_row
}.

(** ** Observable effects on the database connection *)
Inductive Event :=
| EvConnect (ok : bool)
| EvExecute
| EvCommit
| EvCursorClose
| EvConnClose.

(** ** The world: what persists from one request to the next *)
Record World := {
  db : Database;
  session : gmap string pyval;
  flashes : list (string * string);      (* message, category; oldest first *)
  trace : list Event                      (* oldest first *)
}.

(** ** The environment: what a request cannot control *)
Inductive ConnectResult :=
| ConnOk
| ConnMySQLError (e : string)             (* pymysql.Error *)
| ConnOtherError (e : string).            (* any other Exception *)

Record Env := {
  connect : ConnectResult;
  (** the k-th database call of the request raises [pymysql.Error] *)
  db_error : nat -> option string;
  (** [datetime.now().strftime('%Y-%m-%d %H:%M:%S')] *)
  now : string;
  (** the server's LIKE (pattern, text) and ORDER BY comparison; both
      depend on the collation of the column *)
  sql_like : string -> string -> bool;
  sql_leb : string -> string -> bool;
  (** the interpreter that runs the application *)
  python : Py.Interpreter
}.

(** ** Requests and responses *)
Record Request := {
  form : gmap string string;
  args : gmap string string
}.

Inductive Url := url_for (endpoint : string) (id : option Z).

Inductive TemplateContext :=
| NoContext
| CtxAutopecas (autopecas : list (Z * autopeca_row)) (search : string)
| CtxEdit (autopeca : Z * autopeca_row)
| CtxEstoque (autopecas : list (Z * autopeca_row))
             (movimentacoes : list (movimentacao_row * string * string)).

Inductive Response :=
| redirect (location : Url)
| render_template (template : string) (context : TemplateContext).

(** ** Exceptions *)
Inductive pyexn :=
| ValueError (msg : string)
| BadRequestKeyError (key : string)       (* a missing form field *)
| MySQLError (msg : string)               (* pymysql.Error *)
| OtherError (msg : string).

Inductive Result (A : Type) :=
| Return (a : A)
| Raise (e : pyexn).
Arguments Return {A} a.
Arguments Raise {A} e.

(** ** The monad: state and exceptions *)
Record State := {
  world : World;
  calls : nat                              (* database calls so far *)
}.

Definition M (A : Type) : Type := State -> Result A * State.

#[global] Instance M_ret : MRet M := fun A a st => (Return a, st).

Definition bind {A B} (m : M A) (f : A -> M B) : M B := fun st =>
  match m st with
  | (Return a, st') => f a st'
  | (Raise e, st') => (Raise e, st')
  end.

#[global] Instance M_bind : MBind M := fun A B f m => bind m f.

#[global] Instance M_throw : MThrow pyexn M := fun A e st => (Raise e, st).

(** [let* x := m in k] runs [m], names its result and goes on with [k];
    [m;; k] drops the result. *)
Notation "'let*' x ':=' m 'in' k" := (bind m (fun x => k))
  (at level 10, x name, m at level 100, k at level 200, only parsing).

Definition get_world : M World := fun st => (Return (world st), st).

Definition set_world (w : World) : M unit :=
  fun st => (Return tt, {| world := w; calls := calls st |}).

Definition modify_world (f : World -> World) : M unit :=
  w ← get_world; set_world (f w).

Definition set_db (d : Database) (w : World) : World :=
  {| db := d; session := session w; flashes := flashes w; trace := trace w |}.

Definition set_session (s : gmap string pyval) (w : World) : World :=
  {| db := db w; session := s; flashes := flashes w; trace := trace w |}.

Definition add_flash (m : string * string) (w : World) : World :=
  {| db := db w; session := session w;
     flashes := flashes w ++ [m]; trace := trace w |}.

Definition add_event (e : Event) (w : World) : World :=
  {| db := db w; session := session w;
     flashes := flashes w; trace := trace w ++ [e] |}.

(** [flash(message, category)] *)
Definition flash (message category : string) : M unit :=
  modify_world (add_flash (message, category)).

Definition log (e : Event) : M unit := modify_world (add_event e).

(** [try: body / except pymysql.Error as e: handler e] *)
Definition try_except_mysql {A} (body : M A) (handler : string -> M A) : M A :=
  fun st =>
    match body st with
    | (Raise (MySQLError e), st') => handler e st'
    | r => r
    end.

(** [try: body / finally: cleanup].  The cleanup runs on every exit of
    the body: normal completion, [return] and exception. *)
Definition try_finally {A} (body : M A) (cleanup : M unit) : M A :=
  fun st =>
    match body st with
    | (r, st') =>
        match cleanup st' with
        | (Return _, st'') => (r, st'')
        | (Raise e, st'') => (Raise e, st'')
        end
    end.

(** Run a handler body on a world. *)
Definition run {A} (m : M A) (w : World) : Result A * World :=
  match m {| world := w; calls := 0 |} with
  | (r, st) => (r, world st)
  end.

(** ** The connection *)

(** One round trip to the server: the environment decides whether it
    raises; otherwise [f] is the statement's meaning on the tables and
    may itself report an error of the engine. *)
Definition db_call {A} (env : Env) (ev : Event)
    (f : Database -> string + (A * Database)) : M A :=
  fun st =>
    let w := add_event ev (world st) in
    let k := calls st in
    match db_error env k with
    | Some e => (Raise (MySQLError e), {| world := w; calls := S k |})
    | None =>
        match f (db w) with
        | inl e => (Raise (MySQLError e), {| world := w; calls := S k |})
        | inr (a, d) => (Return a, {| world := set_db d w; calls := S k |})
        end
    end.

Definition query {A} (env : Env) (f : Database -> A) : M A :=
  db_call env EvExecute (fun d => inr (f d, d)).

Definition statement (env : Env) (f : Database -> string + Database) : M unit :=
  db_call env EvExecute
    (fun d => match f d with inl e => inl e | inr d' => inr (tt, d') end).

(** [conn.commit()]: the connection is in autocommit mode, every
    statement is already durable; the call is a round trip all the same. *)
Definition commit (env : Env) : M unit :=
  db_call env EvCommit (fun d => inr (tt, d)).

(** The driver writes a float argument into the statement with
    [repr]; it refuses NaN and the infinities with a [ProgrammingError],
    before anything is sent. *)
Definition float_repr_special (x : Py.pyfloat) : string :=
  match x with
  | Py.FInf true => "-inf"
  | Py.FInf false => "inf"
  | _ => "nan"
  end.

Definition escape_float (x : Py.pyfloat) : M unit :=
  if Py.float_is_finite x then mret tt
  else mthrow (MySQLError (float_repr_special x +:+ " can not be used with MySQL")).

Definition cursor_close : M unit := log EvCursorClose.
Definition conn_close : M unit := log EvConnClose.

(** ** Statements *)

Definition set_autopeca (t : gmap Z autopeca_row) (n : Z) (d : Database) :=
  {| autopeca := t; autopeca_auto_increment := n;
     movimentacoes := movimentacoes d; usuario := usuario d |}.

Definition set_movimentacoes (l : list movimentacao_row) (d : Database) :=
  {| autopeca := autopeca d;
     autopeca_auto_increment := autopeca_auto_increment d;
     movimentacoes := l; usuario := usuario d |}.

(** SELECT * FROM autopeca WHERE ID_PECA = %s; fetchone() *)
Definition select_autopeca (id : Z) (d : Database) : option autopeca_row :=
  autopeca d !! id.

(** INSERT INTO autopeca (...) VALUES (...) *)
Definition insert_autopeca (r : autopeca_row) (d : Database) : string + Database :=
  let id := autopeca_auto_increment d in
  match autopeca d !! id with
  | Some _ => inl "Duplicate entry for key PRIMARY"
  | None => inr (set_autopeca (<[id := r]> (autopeca d)) (id + 1) d)
  end.

(** UPDATE autopeca SET <all columns> WHERE ID_PECA = %s *)
Definition update_autopeca_row (id : Z) (r : autopeca_row) (d : Database) : Database :=
  match autopeca d !! id with
  | Some _ => set_autopeca (<[id := r]> (autopeca d)) (autopeca_auto_increment d) d
  | None => d
  end.

(** UPDATE autopeca SET ESTOQUE = %s WHERE ID_PECA = %s *)
Definition with_estoque (novo : Z) (r : autopeca_row) : autopeca_row :=
  {| NOME_PECA := NOME_PECA r; DESCRICAO := DESCRICAO r; ESTOQUE := novo;
     ESTOQUE_MINIMO := ESTOQUE_MINIMO r; NUM_SERIAL := NUM_SERIAL r;
     COMPATIBILIDADE := COMPATIBILIDADE r; PRECO := PRECO r |}.

Definition update_estoque (id novo : Z) (d : Database) : Database :=
  set_autopeca (alter (with_estoque novo) id (autopeca d))
               (autopeca_auto_increment d) d.

(** DELETE FROM autopeca WHERE ID_PECA = %s *)
Definition delete_autopeca_row (id : Z) (d : Database) : Database :=
  set_autopeca (delete id (autopeca d)) (autopeca_auto_increment d) d.

(** INSERT INTO movimentacoes (...) VALUES (...) *)
Definition insert_movimentacao (m : movimentacao_row) (d : Database) : Database :=
  set_movimentacoes (movimentacoes d ++ [m]) d.

(** Insertion sort, for ORDER BY. *)
Fixpoint insert_sorted {A} (leb : A -> A -> bool) (x : A) (l : list A) : list A :=
  match l with
  | [] => [x]
  | y :: l' => if leb x y then x :: l else y :: insert_sorted leb x l'
  end.

Definition sort_by {A} (leb : A -> A -> bool) (l : list A) : list A :=
  foldr (insert_sorted leb) [] l.

(** SELECT * FROM autopeca ORDER BY NOME_PECA *)
Definition select_all_autopecas (env : Env) (d : Database) : list (Z * autopeca_row) :=
  sort_by (fun a b => sql_leb env (NOME_PECA a.2) (NOME_PECA b.2))
          (map_to_list (autopeca d)).

(** SELECT * FROM autopeca WHERE NOME_PECA LIKE %s OR NUM_SERIAL LIKE %s
    ORDER BY NOME_PECA *)
Definition select_autopecas_like (env : Env) (p1 p2 : string) (d : Database)
    : list (Z * autopeca_row) :=
  List.filter
    (fun a => sql_like env p1 (NOME_PECA a.2) || sql_like env p2 (NUM_SERIAL a.2))
    (select_all_autopecas env d).

(** SELECT m.*, a.NOME_PECA, u.NOME as usuario_nome FROM movimentacoes m
    JOIN autopeca a ... JOIN usuario u ... ORDER BY m.DATA_MOVI DESC LIMIT 10 *)
Definition join_movimentacao (d : Database) (m : movimentacao_row)
    : option (movimentacao_row * string * string) :=
  a ← autopeca d !! m_ID_PECA m;
  u ← match m_ID_USUARIO m with
      | VInt uid => usuario d !! uid
      | VStr _ => None
      end;
  Some (m, NOME_PECA a, NOME u).

Definition select_recent_movimentacoes (env : Env) (d : Database)
    : list (movimentacao_row * string * string) :=
  take 10
    (sort_by (fun x y => sql_leb env (DATA_MOVI y.1.1) (DATA_MOVI x.1.1))
             (omap (join_movimentacao d) (movimentacoes d))).

End Model.

(* ===================================================================== *)
(** * The application: [app.py] *)
(* ===================================================================== *)

Module App.
Import Model.

Definition dquote : string := String "034"%char EmptyString.

(** [key in session] *)
Definition session_contains (key : string) : M bool :=
  let* w := get_world in mret (bool_decide (is_Some (session w !! key))).

(** [session[key]] *)
Definition session_getitem (key : string) : M pyval :=
  let* w := get_world in
  match session w !! key with
  | Some v => mret v
  | None => mthrow (OtherError ("KeyError: " +:+ key))
  end.

(** [request.form[key]]: a missing field aborts the request (400). *)
Definition form_getitem (request : Request) (key : string) : M string :=
  match form request !! key with
  | Some v => mret v
  | None => mthrow (BadRequestKeyError key)
  end.

(** [int(s)], raising [ValueError] *)
Definition int (env : Env) (s : string) : M Z :=
  match Py.py_int (python env) s with
  | inr n => mret n
  | inl msg => mthrow (ValueError msg)
  end.

(** [float(s)], raising [ValueError] *)
Definition float (env : Env) (s : string) : M Py.pyfloat :=
  match Py.py_float (python env) s with
  | inr x => mret x
  | inl msg => mthrow (ValueError msg)
  end.

(** [try: body / except ValueError: handler] *)
Definition try_except_ValueError {A} (body : M A) (handler : M A) : M A :=
  fun st =>
    match body st with
    | (Raise (ValueError _), st') => handler st'
    | r => r
    end.

(** A Python object used as a condition: [None] and the empty string are
    false. *)
Definition truthy (o : option string) : bool :=
  match o with
  | None => false
  | Some s => negb (String.eqb s "")
  end.

(** [get_db_connection()]: the handle, or [None] after flashing the
    error. *)
Definition get_db_connection (env : Env) : M (option unit) :=
  match connect env with
  | ConnOk => log (EvConnect true);; mret (Some tt)
  | ConnMySQLError e =>
      log (EvConnect false);;
      flash ("Erro ao conectar com o banco de dados MySQL: " +:+ e) "error";;
      mret None
  | ConnOtherError e =>
      log (EvConnect false);;
      flash ("Erro geral ao conectar: " +:+ e) "error";;
      mret None
  end.

Definition close_all : M unit := cursor_close;; conn_close.

(** [@app.route('/')] *)
Definition index : M Response :=
  let* logged := session_contains "user_id" in
  if logged then mret (redirect (url_for "dashboard" None))
  else mret (redirect (url_for "login" None)).

(** [@app.route('/logout')].  [session.clear()] also drops the pending
    flashed messages, which Flask keeps in the session. *)
Definition logout : M Response :=
  modify_world (fun w =>
    {| db := db w; session := ∅; flashes := []; trace := trace w |});;
  mret (redirect (url_for "login" None)).

(** [@app.route('/dashboard')] *)
Definition dashboard : M Response :=
  let* logged := session_contains "user_id" in
  if negb logged then mret (redirect (url_for "login" None)) else
  mret (render_template "dashboard.html" NoContext).

(** [@app.route('/autopecas')] *)
Definition autopecas (env : Env) (request : Request) : M Response :=
  let* logged := session_contains "user_id" in
  if negb logged then mret (redirect (url_for "login" None)) else
  let search := default "" (args request !! "search") in
  let* conn := get_db_connection env in
  let* autopecas_list :=
    match conn with
    | Some _ =>
        try_finally
          (try_except_mysql
             (if negb (String.eqb search "") then
                query env (select_autopecas_like env
                             ("%" +:+ search +:+ "%") ("%" +:+ search +:+ "%"))
              else
                query env (select_all_autopecas env))
             (fun e => flash ("Erro ao buscar autopeças: " +:+ e) "error";;
                       mret []))
          close_all
    | None => mret []
    end in
  mret (render_template "autopecas.html" (CtxAutopecas autopecas_list search)).

(** [@app.route('/autopecas/add', methods=['POST'])] *)
Definition add_autopeca (env : Env) (request : Request) : M Response :=
  let* logged := session_contains "user_id" in
  if negb logged then mret (redirect (url_for "login" None)) else
  let* nome_peca := form_getitem request "nome_peca" in
  let* descricao := form_getitem request "descricao" in
  let* num_serie := form_getitem request "num_serie" in
  let* compatibilidade := form_getitem request "compatibilidade" in
  let* parsed :=
    try_except_ValueError
      (let* estoque := (let* s := form_getitem request "estoque" in int env s) in
       let* estoque_minimo := (let* s := form_getitem request "estoque_minimo" in int env s) in
       let* preco := (let* s := form_getitem request "preco" in float env s) in
       mret (inr (estoque, estoque_minimo, preco)))
      (flash "Valores numéricos inválidos. Verifique estoque e preço." "error";;
       mret (inl (redirect (url_for "autopecas" None)))) in
  match parsed with
  | inl response => mret response
  | inr (estoque, estoque_minimo, preco) =>
      if estoque <? 0 then
        flash "Estoque não pode ser negativo" "error";;
        mret (redirect (url_for "autopecas" None))
      else if estoque_minimo <? 0 then
        flash "Estoque mínimo não pode ser negativo" "error";;
        mret (redirect (url_for "autopecas" None))
      else if Py.float_le_zero preco then
        flash "Preço deve ser maior que zero" "error";;
        mret (redirect (url_for "autopecas" None))
      else
        let* conn := get_db_connection env in
        match conn with
        | Some _ =>
            try_finally
              (try_except_mysql
                 (escape_float preco;;
                  statement env (insert_autopeca
                    {| NOME_PECA := nome_peca; DESCRICAO := descricao;
                       ESTOQUE := estoque; ESTOQUE_MINIMO := estoque_minimo;
                       NUM_SERIAL := num_serie;
                       COMPATIBILIDADE := compatibilidade; PRECO := preco |});;
                  commit env;;
                  flash "Autopeça adicionada com sucesso!" "success")
                 (fun e => flash ("Erro ao adicionar autopeça: " +:+ e) "error"))
              close_all
        | None => mret tt
        end;;
        mret (redirect (url_for "autopecas" None))
  end.

(** [@app.route('/autopecas/edit/<int:id>')] *)
Definition edit_autopeca (env : Env) (id : Z) : M Response :=
  let* logged := session_contains "user_id" in
  if negb logged then mret (redirect (url_for "login" None)) else
  let* conn := get_db_connection env in
  let* autopeca :=
    match conn with
    | Some _ =>
        try_finally
          (try_except_mysql
             (query env (select_autopeca id))
             (fun e => flash ("Erro ao buscar autopeça: " +:+ e) "error";;
                       mret None))
          close_all
    | None => mret None
    end in
  match autopeca with
  | None =>
      flash "Autopeça não encontrada!" "error";;
      mret (redirect (url_for "autopecas" None))
  | Some a => mret (render_template "edit_autopeca.html" (CtxEdit (id, a)))
  end.

(** [@app.route('/autopecas/update/<int:id>', methods=['POST'])] *)
Definition update_autopeca (env : Env) (request : Request) (id : Z) : M Response :=
  let* logged := session_contains "user_id" in
  if negb logged then mret (redirect (url_for "login" None)) else
  let* nome_peca := form_getitem request "nome_peca" in
  let* descricao := form_getitem request "descricao" in
  let* num_serie := form_getitem request "num_serie" in
  let* compatibilidade := form_getitem request "compatibilidade" in
  let* parsed :=
    try_except_ValueError
      (let* estoque := (let* s := form_getitem request "estoque" in int env s) in
       let* estoque_minimo := (let* s := form_getitem request "estoque_minimo" in int env s) in
       let* preco := (let* s := form_getitem request "preco" in float env s) in
       mret (inr (estoque, estoque_minimo, preco)))
      (flash "Valores numéricos inválidos!" "error";;
       mret (inl (redirect (url_for "edit_autopeca" (Some id))))) in
  match parsed with
  | inl response => mret response
  | inr (estoque, estoque_minimo, preco) =>
      if estoque <? 0 then
        flash "Estoque não pode ser negativo" "error";;
        mret (redirect (url_for "edit_autopeca" (Some id)))
      else if estoque_minimo <? 0 then
        flash "Estoque mínimo não pode ser negativo" "error";;
        mret (redirect (url_for "edit_autopeca" (Some id)))
      else if Py.float_le_zero preco then
        flash "Preço deve ser maior que zero" "error";;
        mret (redirect (url_for "edit_autopeca" (Some id)))
      else
        let* conn := get_db_connection env in
        match conn with
        | Some _ =>
            try_finally
              (try_except_mysql
                 (escape_float preco;;
                  statement env (fun d => inr (update_autopeca_row id
                    {| NOME_PECA := nome_peca; DESCRICAO := descricao;
                       ESTOQUE := estoque; ESTOQUE_MINIMO := estoque_minimo;
                       NUM_SERIAL := num_serie;
                       COMPATIBILIDADE := compatibilidade; PRECO := preco |} d));;
                  commit env;;
                  flash "Autopeça atualizada com sucesso!" "success")
                 (fun e => flash ("Erro ao atualizar autopeça: " +:+ e) "error"))
              close_all
        | None => mret tt
        end;;
        mret (redirect (url_for "autopecas" None))
  end.

(** [@app.route('/autopecas/delete/<int:id>')] *)
Definition delete_autopeca (env : Env) (id : Z) : M Response :=
  let* logged := session_contains "user_id" in
  if negb logged then mret (redirect (url_for "login" None)) else
  let* conn := get_db_connection env in
  match conn with
  | Some _ =>
      try_finally
        (try_except_mysql
           (statement env (fun d => inr (delete_autopeca_row id d));;
            commit env;;
            flash "Autopeça excluída com sucesso!" "success")
           (fun e => flash ("Erro ao excluir autopeça: " +:+ e) "error"))
        close_all
  | None => mret tt
  end;;
  mret (redirect (url_for "autopecas" None)).

(** [@app.route('/estoque')] *)
Definition estoque (env : Env) : M Response :=
  let* logged := session_contains "user_id" in
  if negb logged then mret (redirect (url_for "login" None)) else
  let* conn := get_db_connection env in
  let* lists :=
    match conn with
    | Some _ =>
        try_finally
          (try_except_mysql
             (let* autopecas_list := query env (select_all_autopecas env) in
              (* a failure of the second query keeps the first list *)
              try_except_mysql
                (let* movimentacoes := query env (select_recent_movimentacoes env) in
                 mret (autopecas_list, movimentacoes))
                (fun e =>
                   flash ("Erro ao carregar dados de estoque: " +:+ e) "error";;
                   mret (autopecas_list, [])))
             (fun e => flash ("Erro ao carregar dados de estoque: " +:+ e) "error";;
                       mret ([], [])))
          close_all
    | None =>
        mret ([] : list (Z * autopeca_row),
              [] : list (movimentacao_row * string * string))
    end in
  mret (render_template "estoque.html" (CtxEstoque lists.1 lists.2)).

(** [@app.route('/movimentacao', methods=['POST'])] *)
Definition add_movimentacao (env : Env) (request : Request) : M Response :=
  let* logged := session_contains "user_id" in
  if negb logged then mret (redirect (url_for "login" None)) else
  let* id_peca := (let* s := form_getitem request "id_peca" in int env s) in
  let* quantidade := (let* s := form_getitem request "quantidade" in int env s) in
  let* tipo_movimentacao := form_getitem request "tipo_movimentacao" in
  let data := form request !! "data" in
  let data := if negb (truthy data) then now env else default "" data in
  let* conn := get_db_connection env in
  let* returned :=
    match conn with
    | Some _ =>
        try_finally
          (try_except_mysql
             (let* autopeca := query env (select_autopeca id_peca) in
              match autopeca with
              | None =>
                  flash "Autopeça não encontrada!" "error";;
                  mret (Some (redirect (url_for "estoque" None)))
              | Some autopeca =>
                  let estoque_atual := ESTOQUE autopeca in
                  let* novo :=
                    if String.eqb (Py.py_upper (python env) tipo_movimentacao) "ENTRADA" then
                      mret (inr (estoque_atual + quantidade))
                    else
                      let novo_estoque := estoque_atual - quantidade in
                      if novo_estoque <? 0 then
                        flash "Estoque insuficiente para esta movimentação!" "error";;
                        mret (inl (redirect (url_for "estoque" None)))
                      else mret (inr novo_estoque) in
                  match novo with
                  | inl response => mret (Some response)
                  | inr novo_estoque =>
                      let* user_id := session_getitem "user_id" in
                      statement env (fun d => inr (insert_movimentacao
                        {| m_ID_USUARIO := user_id; m_ID_PECA := id_peca;
                           DATA_MOVI := data; QUANTIDADE := quantidade;
                           TIPO_MOVI := Py.py_upper (python env) tipo_movimentacao |} d));;
                      statement env (fun d => inr (update_estoque id_peca novo_estoque d));;
                      commit env;;
                      (if novo_estoque <? ESTOQUE_MINIMO autopeca then
                         flash ("ALERTA: Estoque da peça " +:+ dquote
                                +:+ NOME_PECA autopeca +:+ dquote
                                +:+ " está abaixo do mínimo! Estoque atual: "
                                +:+ Py.py_str (python env) novo_estoque +:+ ", Mínimo: "
                                +:+ Py.py_str (python env) (ESTOQUE_MINIMO autopeca)) "warning"
                       else
                         flash "Movimentação registrada com sucesso!" "success");;
                      mret None
                  end
              end)
             (fun e => flash ("Erro ao registrar movimentação: " +:+ e) "error";;
                       mret None))
          close_all
    | None => mret None
    end in
  match returned with
  | Some response => mret response
  | None => mret (redirect (url_for "estoque" None))
  end.

(** ** The protected routes *)
Inductive ProtectedRoute :=
| RDashboard
| RAutopecas (request : Request)
| RAddAutopeca (request : Request)
| REditAutopeca (id : Z)
| RUpdateAutopeca (request : Request) (id : Z)
| RDeleteAutopeca (id : Z)
| REstoque
| RAddMovimentacao (request : Request).

Definition dispatch (env : Env) (r : ProtectedRoute) : M Response :=
  match r with
  | RDashboard => dashboard
  | RAutopecas request => autopecas env request
  | RAddAutopeca request => add_autopeca env request
  | REditAutopeca id => edit_autopeca env id
  | RUpdateAutopeca request id => update_autopeca env request id
  | RDeleteAutopeca id => delete_autopeca env id
  | REstoque => estoque env
  | RAddMovimentacao request => add_movimentacao env request
  end.

End App.

(* ===================================================================== *)
(** * Authentication and the public routes *)
(* ===================================================================== *)

Module Auth.
Import Model App.

(** [a = b] in a WHERE clause: equality under the collation of the
    server, that is, neither text sorts before the other. *)
Definition sql_eqb (env : Env) (a b : string) : bool :=
  sql_leb env a b && sql_leb env b a.

(** SELECT * FROM usuario WHERE EMAIL = %s AND SENHA = %s; fetchone() *)
Definition select_usuario (env : Env) (email senha : string) (d : Database)
    : option (Z * usuario_row) :=
  head (List.filter
          (fun u => sql_eqb env (EMAIL u.2) email && sql_eqb env (SENHA u.2) senha)
          (map_to_list (usuario d))).

(** [session[key] = value] *)
Definition session_setitem (key : string) (value : pyval) : M unit :=
  modify_world (fun w => set_session (<[key := value]> (session w)) w).

(** [@app.route('/login', methods=['GET', 'POST'])]; [method] is
    [request.method]. *)
Definition login (env : Env) (method : string) (request : Request) : M Response :=
  let* returned :=
    if String.eqb method "POST" then
      let* email := form_getitem request "email" in
      let* senha := form_getitem request "senha" in
      let* conn := get_db_connection env in
      match conn with
      | Some _ =>
          try_finally
            (try_except_mysql
               (let* user := query env (select_usuario env email senha) in
                match user with
                | Some user =>
                    session_setitem "user_id" (VInt user.1);;
                    session_setitem "user_name" (VStr (NOME user.2));;
                    mret (Some (redirect (url_for "dashboard" None)))
                | None =>
                    flash "Credenciais inválidas. Tente novamente." "error";;
                    mret None
                end)
               (fun e => flash ("Erro ao verificar credenciais: " +:+ e) "error";;
                         mret None))
            close_all
      | None => mret None
      end
    else mret None in
  match returned with
  | Some response => mret response
  | None => mret (render_template "login.html" NoContext)
  end.

(** ** Every route of the application *)
Inductive Route :=
| RIndex
| RLogin (method : string) (request : Request)
| RLogout
| RProtected (r : ProtectedRoute).

Definition serve (env : Env) (r : Route) : M Response :=
  match r with
  | RIndex => index
  | RLogin method request => login env method request
  | RLogout => logout
  | RProtected r => dispatch env r
  end.

End Auth.

(* ===================================================================== *)
(** * Vocabulary of the specification *)
(* ===================================================================== *)

Import Model App.

(** The session holds the marker of an authenticated user. *)
Definition logged_in (w : World) : Prop := is_Some (session w !! "user_id").

(** No database call of the request raises. *)
Definition quiet (env : Env) : Prop := forall k, db_error env k = None.

(** *** Direction of a movement *)

(** The test of the handler: [tipo_movimentacao.upper() == 'ENTRADA']. *)
Definition entrada (env : Env) (tipo : string) : bool :=
  String.eqb (Py.py_upper (python env) tipo) "ENTRADA".


(** The stock the handler computes. *)
Definition novo_estoque_de (env : Env) (tipo : string)
    (estoque_atual quantidade : Z) : Z :=
  if entrada env tipo then estoque_atual + quantidade
  else estoque_atual - quantidade.

(** The timestamp the handler stores. *)
Definition data_de (env : Env) (request : Request) : string :=
  match form request !! "data" with
  | None => now env
  | Some s => if String.eqb s "" then now env else s
  end.

(** The low-stock warning. *)
Definition alerta (env : Env) (nome : string) (novo minimo : Z) : string :=
  "ALERTA: Estoque da peça " +:+ dquote +:+ nome +:+ dquote
  +:+ " está abaixo do mínimo! Estoque atual: " +:+ Py.py_str (python env) novo
  +:+ ", Mínimo: " +:+ Py.py_str (python env) minimo.

(** *** Validation of create and update *)

(** The message of the first check that rejects a submission, in the
    order of the specification: the three numeric fields parse, the stock
    is not negative, the minimum is not negative, the price is positive.
    [parse_message] is the text used for a parse failure, which differs
    between the two forms. *)
Definition first_rejection (env : Env) (parse_message : string)
    (estoque estoque_minimo preco : string) : option string :=
  match Py.py_int (python env) estoque, Py.py_int (python env) estoque_minimo,
        Py.py_float (python env) preco with
  | inr e, inr m, inr p =>
      if e <? 0 then Some "Estoque não pode ser negativo"
      else if m <? 0 then Some "Estoque mínimo não pode ser negativo"
      else if Py.float_le_zero p then Some "Preço deve ser maior que zero"
      else None
  | _, _, _ => Some parse_message
  end.


(** *** Non-negative stock *)

(** A row of [t'] is a row of [t] or has a stock that is not negative. *)
Definition only_nonneg_writes (t t' : gmap Z autopeca_row) : Prop :=
  forall id row, t' !! id = Some row -> t !! id = Some row \/ 0 <= ESTOQUE row.

(** ** Fixtures for the examples *)

Definition filtro : autopeca_row :=
  {| NOME_PECA := "Filtro de oleo"; DESCRICAO := "Filtro"; ESTOQUE := 10;
     ESTOQUE_MINIMO := 5; NUM_SERIAL := "FO-001"; COMPATIBILIDADE := "Gol";
     PRECO := Py.FFinite false 5601352036542054 (-48) |}.

Definition loja : Database :=
  {| autopeca := {[ 1 := filtro ]}; autopeca_auto_increment := 2;
     movimentacoes := []; usuario := ∅ |}.

Definition visitante : World :=
  {| db := loja; session := ∅; flashes := []; trace := [] |}.

Definition admin : World :=
  {| db := loja; session := {[ "user_id" := VInt 1 ]}; flashes := [];
     trace := [] |}.

Definition servidor : Env :=
  {| connect := ConnOk; db_error := fun _ => None;
     now := "2025-01-01 12:00:00";
     sql_like := fun _ _ => true; sql_leb := String.leb;
     python := Py.ascii |}.

Definition servidor_fora : Env :=
  {| connect := ConnMySQLError "(2003, Can't connect to MySQL server)";
     db_error := fun _ => None; now := "2025-01-01 12:00:00";
     sql_like := fun _ _ => true; sql_leb := String.leb;
     python := Py.ascii |}.

Definition movimento (quantidade tipo : string) : Request :=
  {| form := {[ "id_peca" := "1"; "quantidade" := quantidade;
                "tipo_movimentacao" := tipo ]};
     args := ∅ |}.

Definition cadastro (estoque estoque_minimo preco : string) : Request :=
  {| form := {[ "nome_peca" := "Vela"; "descricao" := "Vela de ignicao";
                "num_serie" := "VI-002"; "compatibilidade" := "Uno";
                "estoque" := estoque; "estoque_minimo" := estoque_minimo;
                "preco" := preco ]};
     args := ∅ |}.


Definition busca (search : string) : Request :=
  {| form := ∅; args := {[ "search" := search ]} |}.


(** ** Vocabulary of the further properties *)

Import Auth.

(** Connections opened and not yet closed along a trace. *)
Fixpoint open_connections (tr : list Event) : Z :=
  match tr with
  | [] => 0
  | EvConnect true :: tr' => 1 + open_connections tr'
  | EvConnClose :: tr' => open_connections tr' - 1
  | _ :: tr' => open_connections tr'
  end.

(** Statements and commits sent to the server along a trace. *)
Fixpoint round_trips (tr : list Event) : nat :=
  match tr with
  | [] => 0
  | EvExecute :: tr' => S (round_trips tr')
  | EvCommit :: tr' => S (round_trips tr')
  | _ :: tr' => round_trips tr'
  end.

(** The row a create or update submission describes. *)
Definition submitted_row (nome_peca descricao num_serie compatibilidade : string)
    (estoque estoque_minimo : Z) (preco : Py.pyfloat) : autopeca_row :=
  {| NOME_PECA := nome_peca; DESCRICAO := descricao; ESTOQUE := estoque;
     ESTOQUE_MINIMO := estoque_minimo; NUM_SERIAL := num_serie;
     COMPATIBILIDADE := compatibilidade; PRECO := preco |}.


(** The routes that only read. *)
Definition read_only (r : ProtectedRoute) : bool :=
  match r with
  | RDashboard | RAutopecas _ | REditAutopeca _ | REstoque => true
  | _ => false
  end.

(** The form fields a route reads, and the form it reads them from. *)
Definition required_fields (r : Route) : list string :=
  match r with
  | RLogin _ _ => ["email"; "senha"]
  | RProtected (RAddAutopeca _) | RProtected (RUpdateAutopeca _ _) =>
      ["nome_peca"; "descricao"; "num_serie"; "compatibilidade";
       "estoque"; "estoque_minimo"; "preco"]
  | RProtected (RAddMovimentacao _) =>
      ["id_peca"; "quantidade"; "tipo_movimentacao"]
  | _ => []
  end.

Definition route_form (r : Route) : gmap string string :=
  match r with
  | RLogin _ request
  | RProtected (RAddAutopeca request)
  | RProtected (RUpdateAutopeca request _)
  | RProtected (RAddMovimentacao request) => form request
  | _ => ∅
  end.

(** Every part of the table has a stock that is not negative. *)
Definition stock_nonneg (t : gmap Z autopeca_row) : Prop :=
  forall id row, t !! id = Some row -> 0 <= ESTOQUE row.

(** An inbound movement asks for a quantity that is not negative. *)
Definition inbound_quantity_nonneg (env : Env) (r : ProtectedRoute) : Prop :=
  match r with
  | RAddMovimentacao request =>
      forall tipo sq q,
        form request !! "tipo_movimentacao" = Some tipo ->
        entrada env tipo = true ->
        form request !! "quantidade" = Some sq ->
        Py.py_int (python env) sq = inr q -> 0 <= q
  | _ => True
  end.

(** *** Fixtures *)

Definition gerente : usuario_row :=
  {| EMAIL := "admin@saep.com"; SENHA := "admin123"; NOME := "Administrador" |}.

Definition loja_com_usuario : Database :=
  {| autopeca := {[ 1 := filtro ]}; autopeca_auto_increment := 2;
     movimentacoes := []; usuario := {[ 1 := gerente ]} |}.

Definition porta : World :=
  {| db := loja_com_usuario; session := ∅; flashes := []; trace := [] |}.

Definition credenciais (email senha : string) : Request :=
  {| form := {[ "email" := email; "senha" := senha ]}; args := ∅ |}.

Definition edicao (estoque estoque_minimo preco : string) : Request :=
  {| form := {[ "nome_peca" := "Filtro de ar"; "descricao" := "Filtro";
                "num_serie" := "FA-009"; "compatibilidade" := "Palio";
                "estoque" := estoque; "estoque_minimo" := estoque_minimo;
                "preco" := preco ]};
     args := ∅ |}.

Definition movimento_peca (id_peca quantidade tipo : string) : Request :=
  {| form := {[ "id_peca" := id_peca; "quantidade" := quantidade;
                "tipo_movimentacao" := tipo ]};
     args := ∅ |}.

(** The server answers the first [n] calls of a request and fails the
    next one. *)
Definition servidor_falha (n : nat) : Env :=
  {| connect := ConnOk;
     db_error := fun k => if (k =? n)%nat then Some "(2013, Lost connection)" else None;
     now := "2025-01-01 12:00:00";
     sql_like := fun _ _ => true; sql_leb := String.leb;
     python := Py.ascii |}.

(* ===================================================================== *)
(** * Properties *)
(* ===================================================================== *)

(** ** The builtins on sample texts *)

Example int_plain : Py.ascii_int "15" = inr 15. Proof. reflexivity. Qed.
Example int_signed : Py.ascii_int " -20 " = inr (-20). Proof. reflexivity. Qed.
Example int_underscore : Py.ascii_int "1_000" = inr 1000. Proof. reflexivity. Qed.
Example int_bad_underscore :
  Py.ascii_int "1__0" = inl "invalid literal for int() with base 10: '1__0'".
Proof. reflexivity. Qed.
Example int_letters :
  Py.ascii_int "abc" = inl "invalid literal for int() with base 10: 'abc'".
Proof. reflexivity. Qed.
Example int_empty :
  Py.ascii_int "" = inl "invalid literal for int() with base 10: ''".
Proof. reflexivity. Qed.
Example int_decimal_point :
  Py.ascii_int "1.5" = inl "invalid literal for int() with base 10: '1.5'".
Proof. reflexivity. Qed.
(** The separators FS..US are not skipped; TAB..CR and the space are. *)
Example int_separator :
  Py.ascii_int (String "028" "5")
  = inl "invalid literal for int() with base 10: '\x1c5'".
Proof. reflexivity. Qed.
Example int_vertical_tab : Py.ascii_int (String "011" "5 ") = inr 5.
Proof. reflexivity. Qed.
Example float_plain :
  Py.ascii_float "19.90" = inr (Py.FFinite false 5601352036542054 (-48)).
Proof. vm_compute. reflexivity. Qed.
Example float_exp :
  Py.ascii_float "-1.5e3" = inr (Py.FFinite true 6597069766656000 (-42)).
Proof. vm_compute. reflexivity. Qed.
Example float_lead_dot :
  Py.ascii_float ".5" = inr (Py.FFinite false 4503599627370496 (-53)).
Proof. vm_compute. reflexivity. Qed.
Example float_trail_dot :
  Py.ascii_float "5." = inr (Py.FFinite false 5629499534213120 (-50)).
Proof. vm_compute. reflexivity. Qed.
Example float_nan : Py.ascii_float "NaN" = inr Py.FNan. Proof. reflexivity. Qed.
Example float_inf : Py.ascii_float "-Infinity" = inr (Py.FInf true).
Proof. reflexivity. Qed.
Example float_overflow : Py.ascii_float "1e999" = inr (Py.FInf false).
Proof. vm_compute. reflexivity. Qed.
Example float_underflow : Py.ascii_float "1e-400" = inr (Py.FFinite false 0 0).
Proof. vm_compute. reflexivity. Qed.
Example float_smallest : Py.ascii_float "3e-324" = inr (Py.FFinite false 1 (-1074)).
Proof. vm_compute. reflexivity. Qed.
Example float_dot_only :
  Py.ascii_float "." = inl "could not convert string to float: '.'".
Proof. reflexivity. Qed.
Example float_bad :
  Py.ascii_float "1_.5" = inl "could not convert string to float: '1_.5'".
Proof. reflexivity. Qed.
Example str_neg : Py.str (-10) = "-10". Proof. reflexivity. Qed.
Example str_zero : Py.str 0 = "0". Proof. reflexivity. Qed.
Example str_big : Py.str 1234567 = "1234567". Proof. reflexivity. Qed.
Example upper_mixed : Py.ascii_upper "Entrada" = "ENTRADA". Proof. reflexivity. Qed.

(** ** Evaluating a handler

    A handler is run by unfolding the monad and simplifying, and then
    rewriting with what is known of the session, the form and the
    environment. *)

Create HintDb handlers.
#[local] Hint Unfold run bind mbind M_bind mret M_ret mthrow M_throw
  session_contains session_getitem form_getitem int float get_db_connection
  try_finally try_except_mysql try_except_ValueError query statement commit
  db_call flash log modify_world close_all cursor_close conn_close
  get_world set_world select_autopeca escape_float : handlers.

Ltac simp_handler :=
  cbn -[Py.float_le_zero Py.float_is_finite String.eqb String.append Z.ltb].

Ltac eval_handler := autounfold with handlers; simp_handler.

Ltac step H := rewrite ?H; simp_handler.

Lemma set_autopeca_same (d : Database) :
  set_autopeca (autopeca d) (autopeca_auto_increment d) d = d.
Proof. destruct d; reflexivity. Qed.

Lemma delete_missing_row (id : Z) (d : Database) :
  autopeca d !! id = None -> delete_autopeca_row id d = d.
Proof.
  intros H. unfold delete_autopeca_row.
  rewrite delete_id by exact H. apply set_autopeca_same.
Qed.

(** ** Session guard *)

Lemma guard_rejects_anonymous (env : Env) (r : ProtectedRoute) (w : World) :
  session w !! "user_id" = None ->
  run (dispatch env r) w = (Return (redirect (url_for "login" None)), w).
Proof.
  intros H.
  destruct r; cbn [dispatch];
    unfold dashboard, autopecas, add_autopeca, edit_autopeca, update_autopeca,
           delete_autopeca, estoque, add_movimentacao;
    eval_handler; rewrite H; reflexivity.
Qed.

(** C7: on every protected route, a request whose session has no
    [user_id] is answered by a redirect to the login route and leaves the
    world as it was: tables, session, flashed messages and the
    connection trace (no connection is opened, nothing is executed). *)
Theorem protected_route_requires_login (env : Env) (r : ProtectedRoute) (w : World) :
  session w !! "user_id" = None ->
  run (dispatch env r) w = (Return (redirect (url_for "login" None)), w).
Proof. apply guard_rejects_anonymous. Qed.

Lemma protected_route_requires_login_witness :
  run (dispatch servidor (RAddMovimentacao (movimento "5" "ENTRADA"))) visitante
  = (Return (redirect (url_for "login" None)), visitante).
Proof. apply protected_route_requires_login. reflexivity. Defined.

(** After [logout] every protected route redirects to login. *)
Lemma logout_then_protected (env : Env) (r : ProtectedRoute) (w : World) :
  (run (dispatch env r) (run logout w).2).1
  = Return (redirect (url_for "login" None)).
Proof.
  rewrite guard_rejects_anonymous; [reflexivity|].
  unfold logout. eval_handler. apply lookup_empty.
Qed.

(** ** Listing when the connection fails *)

(** C9: for a logged-in list request, with or without a search string,
    when the connection factory fails the page is rendered with an empty
    list of parts; the only change to the world is the flashed
    connection error and the failed connection attempt; nothing is
    raised. *)
Theorem autopecas_connection_failure (env : Env) (request : Request) (w : World) :
  logged_in w ->
  connect env <> ConnOk ->
  exists e w',
    run (autopecas env request) w
    = (Return (render_template "autopecas.html"
                 (CtxAutopecas [] (default "" (args request !! "search")))), w')
    /\ flashes w' = flashes w ++ [(e, "error")]
    /\ db w' = db w
    /\ session w' = session w
    /\ trace w' = trace w ++ [EvConnect false].
Proof.
  intros [uid Hs] Hc.
  unfold autopecas. eval_handler. rewrite Hs. simp_handler.
  destruct (connect env) as [| e | e]; [congruence | |];
    simp_handler; eexists; eexists; (split; [reflexivity|]); cbn; auto.
Qed.

Lemma autopecas_connection_failure_witness :
  exists e w',
    run (autopecas servidor_fora (busca "vela")) admin
    = (Return (render_template "autopecas.html"
                 (CtxAutopecas [] (default "" (args (busca "vela") !! "search")))), w')
    /\ flashes w' = flashes admin ++ [(e, "error")]
    /\ db w' = db admin
    /\ session w' = session admin
    /\ trace w' = trace admin ++ [EvConnect false].
Proof.
  apply (autopecas_connection_failure servidor_fora (busca "vela") admin).
  - exists (VInt 1). reflexivity.
  - discriminate.
Defined.

(** ** Identifiers that are not in the table *)

(** C8: for an identifier that is not in the parts table and a logged-in
    user, read-for-edit and delete both return a redirect to the list
    view whatever the environment does (they never raise); neither
    changes the tables; read-for-edit flashes "not found" last. *)
Theorem missing_id_edit_delete (env : Env) (id : Z) (w : World) :
  logged_in w ->
  autopeca (db w) !! id = None ->
  (exists w',
      run (edit_autopeca env id) w
      = (Return (redirect (url_for "autopecas" None)), w')
      /\ db w' = db w
      /\ last (flashes w') = Some ("Autopeça não encontrada!", "error"))
  /\ (exists w',
      run (delete_autopeca env id) w
      = (Return (redirect (url_for "autopecas" None)), w')
      /\ db w' = db w).
Proof.
  intros [uid Hs] Hid. split.
  - unfold edit_autopeca. eval_handler. rewrite Hs. simp_handler.
    destruct (connect env) as [| e | e]; simp_handler.
    + destruct (db_error env 0) as [e|]; simp_handler.
      * eexists; split; [reflexivity|]. cbn. split; [reflexivity|].
        apply last_snoc.
      * rewrite Hid. simp_handler.
        eexists; split; [reflexivity|]. cbn. split; [reflexivity|].
        apply last_snoc.
    + eexists; split; [reflexivity|]. cbn. split; [reflexivity|]. apply last_snoc.
    + eexists; split; [reflexivity|]. cbn. split; [reflexivity|]. apply last_snoc.
  - unfold delete_autopeca. eval_handler. rewrite Hs. simp_handler.
    destruct (connect env) as [| e | e]; simp_handler.
    + destruct (db_error env 0) as [e|]; simp_handler.
      * eexists; split; reflexivity.
      * destruct (db_error env 1) as [e|]; simp_handler;
          (eexists; split; [reflexivity|]); cbn; apply delete_missing_row, Hid.
    + eexists; split; reflexivity.
    + eexists; split; reflexivity.
Qed.

Lemma missing_id_edit_delete_witness :
  (exists w',
      run (edit_autopeca servidor 42) admin
      = (Return (redirect (url_for "autopecas" None)), w')
      /\ db w' = db admin
      /\ last (flashes w') = Some ("Autopeça não encontrada!", "error"))
  /\ (exists w',
      run (delete_autopeca servidor 42) admin
      = (Return (redirect (url_for "autopecas" None)), w')
      /\ db w' = db admin).
Proof.
  apply (missing_id_edit_delete servidor 42 admin).
  - exists (VInt 1). reflexivity.
  - reflexivity.
Defined.

(** ** Direction of a movement *)






Example entrada_lowercase : entrada servidor "entrada" = true.
Proof. reflexivity. Qed.
Example entrada_mixed : entrada servidor "EnTrAdA" = true.
Proof. reflexivity. Qed.
Example entrada_saida : entrada servidor "SAIDA" = false.
Proof. reflexivity. Qed.
Example entrada_typo : entrada servidor "ENTRADAS" = false.
Proof. reflexivity. Qed.
Example entrada_padded : entrada servidor " ENTRADA" = false.
Proof. reflexivity. Qed.

(** ** Recording a movement *)

Section Movimentacao.

Variables (env : Env) (request : Request) (w : World).
Variables (uid : pyval) (sid sq tipo : string) (id_peca quantidade : Z).
Variable autopeca_atual : autopeca_row.

(** A logged-in user submits a movement on an existing part; the
    interpreter reads the part and the quantity as numbers. *)
Hypothesis Hsession : session w !! "user_id" = Some uid.
Hypothesis Hid : form request !! "id_peca" = Some sid.
Hypothesis Hid_int : Py.py_int (python env) sid = inr id_peca.
Hypothesis Hquantidade : form request !! "quantidade" = Some sq.
Hypothesis Hquantidade_int : Py.py_int (python env) sq = inr quantidade.
Hypothesis Htipo : form request !! "tipo_movimentacao" = Some tipo.
Hypothesis Hpeca : autopeca (db w) !! id_peca = Some autopeca_atual.

Local Abbreviation novo_estoque :=
  (novo_estoque_de env tipo (ESTOQUE autopeca_atual) quantidade).

Local Abbreviation registro :=
  {| m_ID_USUARIO := uid; m_ID_PECA := id_peca;
     DATA_MOVI := data_de env request; QUANTIDADE := quantidade;
     TIPO_MOVI := Py.py_upper (python env) tipo |}.

Lemma data_de_eq :
  (if negb (truthy (form request !! "data")) then now env
   else default "" (form request !! "data")) = data_de env request.
Proof.
  unfold data_de, truthy. destruct (form request !! "data") as [s|]; cbn;
    [destruct (String.eqb s "")|]; reflexivity.
Qed.

(** What a movement that passes the stock check does, when the server
    answers every call. *)
Lemma add_movimentacao_written :
  connect env = ConnOk -> quiet env ->
  entrada env tipo = true \/ 0 <= ESTOQUE autopeca_atual - quantidade ->
  exists w',
    run (add_movimentacao env request) w
    = (Return (redirect (url_for "estoque" None)), w')
    /\ db w' = update_estoque id_peca novo_estoque
                 (insert_movimentacao registro (db w))
    /\ session w' = session w
    /\ flashes w' = flashes w ++
         [if novo_estoque <? ESTOQUE_MINIMO autopeca_atual
          then (alerta env (NOME_PECA autopeca_atual) novo_estoque
                       (ESTOQUE_MINIMO autopeca_atual), "warning")
          else ("Movimentação registrada com sucesso!", "success")].
Proof.
  intros Hc Hq Hv.
  unfold novo_estoque_de, alerta.
  rewrite <- data_de_eq.
  unfold add_movimentacao. eval_handler.
  step Hsession. step Hid. step Hid_int. step Hquantidade.
  step Hquantidade_int. step Htipo. step Hc. unfold quiet in Hq.
  step Hq. step Hpeca. unfold entrada in *.
  destruct (String.eqb (Py.py_upper (python env) tipo) "ENTRADA") eqn:E; simp_handler.
  - step Hsession. repeat step Hq.
    destruct (_ <? ESTOQUE_MINIMO _); simp_handler;
      eexists; (split; [reflexivity|]); cbn; auto.
  - destruct Hv as [Hv|Hv]; [discriminate|].
    destruct (ESTOQUE autopeca_atual - quantidade <? 0) eqn:En;
      [apply Z.ltb_lt in En; lia|].
    simp_handler. step Hsession. repeat step Hq.
    destruct (_ <? ESTOQUE_MINIMO _); simp_handler;
      eexists; (split; [reflexivity|]); cbn; auto.
Qed.




(** C2: an outbound movement, one whose upper-cased direction is not
    ENTRADA, whose quantity exceeds the current stock changes no table,
    whatever the environment does; when the part could be read, the only
    effects are the flashed "insufficient stock" error and one executed
    statement, the SELECT. *)
Theorem insufficient_stock_aborts :
  entrada env tipo = false ->
  ESTOQUE autopeca_atual < quantidade ->
  exists w',
    run (add_movimentacao env request) w
    = (Return (redirect (url_for "estoque" None)), w')
    /\ db w' = db w
    /\ (connect env = ConnOk -> db_error env 0 = None ->
        flashes w' = flashes w ++
          [("Estoque insuficiente para esta movimentação!", "error")]
        /\ trace w' = trace w ++
             [EvConnect true; EvExecute; EvCursorClose; EvConnClose]).
Proof.
  intros Hout Hgt. unfold entrada in Hout.
  assert (Hneg : (ESTOQUE autopeca_atual - quantidade <? 0) = true)
    by (apply Z.ltb_lt; lia).
  unfold add_movimentacao. eval_handler.
  step Hsession. step Hid. step Hid_int. step Hquantidade.
  step Hquantidade_int. step Htipo.
  destruct (connect env) as [| e | e]; simp_handler.
  - destruct (db_error env 0) as [e|]; simp_handler.
    + eexists; split; [reflexivity|]. split; [reflexivity|]. discriminate.
    + step Hpeca. step Hout. step Hneg.
      eexists; split; [reflexivity|]. split; [reflexivity|].
      intros _ _. cbn. split; [reflexivity|].
      rewrite <- !app_assoc. reflexivity.
  - eexists; split; [reflexivity|]. split; [reflexivity|]. discriminate.
  - eexists; split; [reflexivity|]. split; [reflexivity|]. discriminate.
Qed.

End Movimentacao.

(** The four statements at a concrete submission: the administrator moves
    units of the oil filter (stock 10, minimum 5). *)



(** The same submission, with the text of the warning spelled out. *)
Example low_stock_warning_text :
  flashes (run (add_movimentacao servidor (movimento "7" "Saida")) admin).2
  = [("ALERTA: Estoque da peça " +:+ String "034" "" +:+ "Filtro de oleo"
      +:+ String "034" ""
      +:+ " está abaixo do mínimo! Estoque atual: 3, Mínimo: 5", "warning")].
Proof. vm_compute. reflexivity. Qed.


Lemma insufficient_stock_aborts_witness :
  exists w',
    run (add_movimentacao servidor (movimento "20" "SAIDA")) admin
    = (Return (redirect (url_for "estoque" None)), w')
    /\ db w' = db admin
    /\ (connect servidor = ConnOk -> db_error servidor 0 = None ->
        flashes w' = flashes admin ++
          [("Estoque insuficiente para esta movimentação!", "error")]
        /\ trace w' = trace admin ++
             [EvConnect true; EvExecute; EvCursorClose; EvConnClose]).
Proof.
  apply (insufficient_stock_aborts servidor (movimento "20" "SAIDA") admin
           (VInt 1) "1" "20" "SAIDA" 1 20 filtro);
    reflexivity.
Defined.

(** The round trip of the specification: stock 10, minimum 5; an inbound
    movement of 5 gives 15 with the success message; an outbound movement
    of 20 is then rejected and the stock stays 15. *)
Example round_trip :
  let w1 := (run (add_movimentacao servidor (movimento "5" "ENTRADA")) admin).2 in
  let w2 := (run (add_movimentacao servidor (movimento "20" "SAIDA")) w1).2 in
  ESTOQUE <$> autopeca (db w1) !! 1 = Some 15
  /\ flashes w1 = [("Movimentação registrada com sucesso!", "success")]
  /\ ESTOQUE <$> autopeca (db w2) !! 1 = Some 15
  /\ length (movimentacoes (db w2)) = 1%nat.
Proof. vm_compute. auto. Qed.

(** ** Validation of create and update *)


Section Cadastro.

Variables (env : Env) (request : Request) (w : World) (id : Z).
Variables (nome_peca descricao num_serie compatibilidade : string).
Variables (estoque estoque_minimo preco : string).

(** A logged-in user submits the form with all its seven fields. *)
Hypothesis Hlogged : logged_in w.
Hypothesis Hnome : form request !! "nome_peca" = Some nome_peca.
Hypothesis Hdescricao : form request !! "descricao" = Some descricao.
Hypothesis Hserie : form request !! "num_serie" = Some num_serie.
Hypothesis Hcompat : form request !! "compatibilidade" = Some compatibilidade.
Hypothesis Hestoque : form request !! "estoque" = Some estoque.
Hypothesis Hminimo : form request !! "estoque_minimo" = Some estoque_minimo.
Hypothesis Hpreco : form request !! "preco" = Some preco.




End Cadastro.



Example first_rejection_order :
  first_rejection servidor "parse" "-1" "-1" "0" = Some "Estoque não pode ser negativo"
  /\ first_rejection servidor "parse" "1" "-1" "0"
     = Some "Estoque mínimo não pode ser negativo"
  /\ first_rejection servidor "parse" "1" "1" "0" = Some "Preço deve ser maior que zero"
  /\ first_rejection servidor "parse" "-1" "x" "0" = Some "parse"
  /\ first_rejection servidor "parse" "1" "1" "0.01" = None
  /\ first_rejection servidor "parse" "1" "1" "1e-400"
     = Some "Preço deve ser maior que zero"
  /\ first_rejection servidor "parse" "1" "1" "nan" = None.
Proof. vm_compute. auto 10. Qed.

(** ** Stock is never negative: what holds and what does not *)

(** Every branch of a handler, by cases on what the session, the form
    and the environment answer. *)
Ltac all_paths :=
  repeat match goal with
         | |- context [match ?x with _ => _ end] =>
             lazymatch x with
             | context [match _ with _ => _ end] => fail
             | _ => destruct x eqn:?; simp_handler
             end
         end.

Lemma only_nonneg_writes_refl (t : gmap Z autopeca_row) : only_nonneg_writes t t.
Proof. intros id row H. left. exact H. Qed.

Lemma only_nonneg_writes_insert (t : gmap Z autopeca_row) (k : Z) (r : autopeca_row) :
  0 <= ESTOQUE r -> only_nonneg_writes t (<[k := r]> t).
Proof.
  intros Hr id row. rewrite lookup_insert.
  case_decide; [intros [= <-]; right; exact Hr | intros ?; left; assumption].
Qed.

#[local] Hint Resolve only_nonneg_writes_refl : handlers.

(** Create stores no negative stock. *)
Lemma add_autopeca_stock_nonneg (env : Env) (request : Request) (w : World) :
  only_nonneg_writes (autopeca (db w))
    (autopeca (db (run (add_autopeca env request) w).2)).
Proof.
  unfold add_autopeca, insert_autopeca. eval_handler. all_paths;
    auto with handlers.
  all: apply only_nonneg_writes_insert; cbn; apply Z.ltb_ge; assumption.
Qed.

(** Update stores no negative stock. *)
Lemma update_autopeca_stock_nonneg (env : Env) (request : Request) (id : Z) (w : World) :
  only_nonneg_writes (autopeca (db w))
    (autopeca (db (run (update_autopeca env request id) w).2)).
Proof.
  unfold update_autopeca, update_autopeca_row. eval_handler. all_paths;
    auto with handlers.
  all: apply only_nonneg_writes_insert; cbn; apply Z.ltb_ge; assumption.
Qed.

(** An outbound movement stores no negative stock. *)
Lemma saida_stock_nonneg (env : Env) (request : Request) (w : World) (tipo : string) :
  form request !! "tipo_movimentacao" = Some tipo ->
  entrada env tipo = false ->
  only_nonneg_writes (autopeca (db w))
    (autopeca (db (run (add_movimentacao env request) w).2)).
Proof.
  intros Ht Hout. unfold entrada in Hout.
  unfold add_movimentacao, update_estoque, insert_movimentacao.
  eval_handler. all_paths; auto with handlers.
  all: try (rewrite Ht in *; simplify_eq).
  all: try congruence.
  all: intros k row; rewrite lookup_alter;
    case_decide; [subst k|intros ?; left; assumption].
  all: match goal with
       | H : autopeca _ !! _ = Some _ |- _ => rewrite H
       end; cbn; intros [= <-]; right; cbn; apply Z.ltb_ge; assumption.
Qed.

(** C1: the invariant fails on the inbound path.  The administrator
    submits an ENTRADA of -20 units on a part with 10 in stock: the
    handler records the movement and stores a stock of -10.  (Create,
    update and outbound movements do keep the stock non-negative:
    [add_autopeca_stock_nonneg], [update_autopeca_stock_nonneg],
    [saida_stock_nonneg].) *)
Theorem entrada_negative_quantity_negative_stock :
  exists w',
    run (add_movimentacao servidor (movimento "-20" "ENTRADA")) admin
    = (Return (redirect (url_for "estoque" None)), w')
    /\ ESTOQUE <$> autopeca (db admin) !! 1 = Some 10
    /\ ESTOQUE <$> autopeca (db w') !! 1 = Some (-10)
    /\ length (movimentacoes (db w')) = 1%nat.
Proof. eexists. vm_compute. auto. Qed.

(** ** Non-numeric input *)

(** The movement handler converts its two numeric fields outside any
    [try]: a field that the interpreter does not parse raises out of the
    handler. *)
Lemma add_movimentacao_unparsed_quantidade (env : Env) (request : Request)
    (w : World) (sid sq msg : string) (id_peca : Z) :
  logged_in w ->
  form request !! "id_peca" = Some sid ->
  Py.py_int (python env) sid = inr id_peca ->
  form request !! "quantidade" = Some sq ->
  Py.py_int (python env) sq = inl msg ->
  run (add_movimentacao env request) w = (Raise (ValueError msg), w).
Proof.
  intros [uid Hs] Hid Hid_int Hq Hq_int.
  unfold add_movimentacao. eval_handler.
  step Hs. step Hid. step Hid_int. step Hq. step Hq_int. reflexivity.
Qed.

Lemma add_movimentacao_unparsed_id_peca (env : Env) (request : Request)
    (w : World) (sid msg : string) :
  logged_in w ->
  form request !! "id_peca" = Some sid ->
  Py.py_int (python env) sid = inl msg ->
  run (add_movimentacao env request) w = (Raise (ValueError msg), w).
Proof.
  intros [uid Hs] Hid Hid_int.
  unfold add_movimentacao. eval_handler.
  step Hs. step Hid. step Hid_int. reflexivity.
Qed.

(** C4: the claim fails on the movement handler.  A movement with the
    quantity "abc" raises [ValueError] out of the handler: no redirect,
    no flashed message.  The create handler, given the same text as its
    stock, flashes the error and redirects. *)
Theorem add_movimentacao_non_numeric_raises :
  run (add_movimentacao servidor (movimento "abc" "SAIDA")) admin
  = (Raise (ValueError "invalid literal for int() with base 10: 'abc'"), admin)
  /\ run (add_autopeca servidor (cadastro "abc" "1" "10")) admin
     = (Return (redirect (url_for "autopecas" None)),
        add_flash ("Valores numéricos inválidos. Verifique estoque e preço.",
                   "error") admin).
Proof. split; vm_compute; reflexivity. Qed.

(** ** The handlers on sample requests *)

(** A valid create adds the row under the next identifier. *)
Example create_valid :
  let w' := (run (add_autopeca servidor (cadastro "3" "1" "12.50")) admin).2 in
  ESTOQUE <$> autopeca (db w') !! 2 = Some 3
  /\ PRECO <$> autopeca (db w') !! 2 = Some (Py.FFinite false 7036874417766400 (-49))
  /\ autopeca (db w') !! 1 = Some filtro
  /\ flashes w' = [("Autopeça adicionada com sucesso!", "success")]
  /\ trace w' = [EvConnect true; EvExecute; EvCommit; EvCursorClose; EvConnClose].
Proof. vm_compute. auto 10. Qed.

(** A statement that fails is reported and leaves the table alone. *)
Example create_database_error :
  let env := {| connect := ConnOk;
                db_error := fun k => if (k =? 0)%nat then Some "(1406, Data too long)" else None;
                now := now servidor; sql_like := sql_like servidor;
                sql_leb := sql_leb servidor; python := python servidor |} in
  run (add_autopeca env (cadastro "3" "1" "12.50")) admin
  = (Return (redirect (url_for "autopecas" None)),
     {| db := loja; session := session admin;
        flashes := [("Erro ao adicionar autopeça: (1406, Data too long)", "error")];
        trace := [EvConnect true; EvExecute; EvCursorClose; EvConnClose] |}).
Proof. vm_compute. reflexivity. Qed.

(** Deleting an existing part removes it; the edit form of an existing
    part is rendered with its row. *)
Example delete_existing :
  autopeca (db (run (delete_autopeca servidor 1) admin).2) !! 1 = None.
Proof. vm_compute. reflexivity. Qed.

Example edit_existing :
  (run (edit_autopeca servidor 1) admin).1
  = Return (render_template "edit_autopeca.html" (CtxEdit (1, filtro))).
Proof. vm_compute. reflexivity. Qed.

(** A missing form field aborts the request before anything else. *)
Example movement_missing_field :
  run (add_movimentacao servidor {| form := {[ "id_peca" := "1" ]}; args := ∅ |}) admin
  = (Raise (BadRequestKeyError "quantidade"), admin).
Proof. vm_compute. reflexivity. Qed.

(** An outbound movement with a negative quantity raises the stock. *)
Example saida_negative_quantity :
  ESTOQUE <$> autopeca (db (run (add_movimentacao servidor (movimento "-5" "SAIDA")) admin).2) !! 1
  = Some 15.
Proof. vm_compute. reflexivity. Qed.


(** A price that is not a number passes the price check and is then
    refused by the driver: nothing is stored. *)
Example create_nan_price :
  run (add_autopeca servidor (cadastro "3" "1" "nan")) admin
  = (Return (redirect (url_for "autopecas" None)),
     {| db := loja; session := session admin;
        flashes := [("Erro ao adicionar autopeça: nan can not be used with MySQL",
                     "error")];
        trace := [EvConnect true; EvCursorClose; EvConnClose] |}).
Proof. vm_compute. reflexivity. Qed.
(* ===================================================================== *)
(** * Further properties of the handlers *)
(* ===================================================================== *)

#[local] Hint Unfold session_setitem : handlers.

Ltac unfold_routes :=
  unfold index, login, logout, dashboard, autopecas, add_autopeca,
    edit_autopeca, update_autopeca, delete_autopeca, estoque, add_movimentacao.

Ltac unfold_statements :=
  unfold insert_autopeca, update_autopeca_row, update_estoque,
    delete_autopeca_row, insert_movimentacao, set_autopeca, set_movimentacoes.

Lemma open_connections_app (a b : list Event) :
  open_connections (a ++ b) = open_connections a + open_connections b.
Proof.
  induction a as [|e a IH]; cbn; [reflexivity|].
  destruct e as [[]| | | |]; rewrite ?IH; lia.
Qed.

Lemma round_trips_app (a b : list Event) :
  round_trips (a ++ b) = (round_trips a + round_trips b)%nat.
Proof.
  induction a as [|e a IH]; cbn; [reflexivity|].
  destruct e; rewrite ?IH; lia.
Qed.

(** ** What no route does *)

(** X1: every route returns with as many connections closed as it
    opened, whatever the request and the environment: on success, on a
    failed statement, on an early [return] inside the [try] and when an
    exception leaves the handler. *)
Theorem connections_are_closed (env : Env) (r : Route) (w : World) :
  open_connections (trace (run (serve env r) w).2) = open_connections (trace w).
Proof.
  destruct r as [| method request | | []]; cbn [serve dispatch];
    unfold_routes; eval_handler; all_paths;
    rewrite ?open_connections_app; cbn; lia.
Qed.

(** X2: no route writes to the user table: users are neither created,
    changed nor removed by the application. *)
Theorem usuario_never_written (env : Env) (r : Route) (w : World) :
  usuario (db (run (serve env r) w).2) = usuario (db w).
Proof.
  destruct r as [| method request | | []]; cbn [serve dispatch];
    unfold_routes; unfold_statements; eval_handler; all_paths; reflexivity.
Qed.

(** X3: the movement table is append-only: a request leaves it as it
    was or adds one row at its end, and only the movement route adds. *)
Theorem movimentacoes_append_only (env : Env) (r : Route) (w : World) :
  let w' := (run (serve env r) w).2 in
  movimentacoes (db w') = movimentacoes (db w)
  \/ (exists request m,
        r = RProtected (RAddMovimentacao request)
        /\ movimentacoes (db w') = movimentacoes (db w) ++ [m]).
Proof.
  destruct r as [| method request | | []]; cbn [serve dispatch];
    unfold_routes; unfold_statements; eval_handler; all_paths;
    first [ left; reflexivity
          | right; eexists; eexists; split; reflexivity ].
Qed.

(** X4: a protected route never changes the session: only login and
    logout do. *)
Theorem protected_route_keeps_session (env : Env) (r : ProtectedRoute) (w : World) :
  session (run (dispatch env r) w).2 = session w.
Proof.
  destruct r; cbn [dispatch]; unfold_routes; eval_handler; all_paths;
    reflexivity.
Qed.

(** X5: the dashboard, the list, the edit form and the stock view leave
    every table as it was, in every environment. *)
Theorem read_only_routes (env : Env) (r : ProtectedRoute) (w : World) :
  read_only r = true ->
  db (run (dispatch env r) w).2 = db w.
Proof.
  destruct r; cbn [read_only]; try discriminate; intros _; cbn [dispatch];
    unfold_routes; eval_handler; all_paths; reflexivity.
Qed.

Lemma read_only_routes_witness :
  db (run (dispatch servidor (RAutopecas (busca "Filtro"))) admin).2 = db admin.
Proof. apply read_only_routes. reflexivity. Defined.

(** X6: when the connection cannot be opened no route sends anything
    to the server and every table stays as it was. *)
Theorem no_connection_no_database_work (env : Env) (r : Route) (w : World) :
  connect env <> ConnOk ->
  let w' := (run (serve env r) w).2 in
  db w' = db w /\ round_trips (trace w') = round_trips (trace w).
Proof.
  intros Hc.
  destruct r as [| method request | | []]; cbn [serve dispatch];
    unfold_routes; eval_handler;
    destruct (connect env) as [| e | e]; try congruence;
    all_paths; (split; [reflexivity|]);
    rewrite ?round_trips_app; cbn; lia.
Qed.

Lemma no_connection_no_database_work_witness :
  let w' := (run (serve servidor_fora (RProtected (RDeleteAutopeca 1))) admin).2 in
  db w' = db admin /\ round_trips (trace w') = round_trips (trace admin).
Proof. apply no_connection_no_database_work. discriminate. Defined.

(** ** Authentication *)






Section Login.

Variables (env : Env) (request : Request) (w : World) (email senha : string).

Hypothesis Hemail : form request !! "email" = Some email.
Hypothesis Hsenha : form request !! "senha" = Some senha.
Hypothesis Hconnect : connect env = ConnOk.
Hypothesis Hquery : db_error env 0 = None.



End Login.



(** A request to the login route that is not a POST renders the
    form and touches nothing: no field is read, no connection opened. *)
Lemma login_form_only (env : Env) (method : string) (request : Request) (w : World) :
  method <> "POST" ->
  run (login env method request) w
  = (Return (render_template "login.html" NoContext), w).
Proof.
  intros H. apply String.eqb_neq in H.
  unfold login. eval_handler. rewrite H. reflexivity.
Qed.

Lemma login_form_only_witness :
  run (login servidor "GET" (credenciais "" "")) porta
  = (Return (render_template "login.html" NoContext), porta).
Proof. apply login_form_only. discriminate. Defined.

(** A POST to login without the [email] or the [senha] field
    aborts the request before any connection is opened. *)
Lemma login_missing_field (env : Env) (request : Request) (w : World) :
  form request !! "email" = None \/ form request !! "senha" = None ->
  exists key,
    run (login env "POST" request) w = (Raise (BadRequestKeyError key), w).
Proof.
  intros H. unfold login. eval_handler. rewrite String.eqb_refl. simp_handler.
  destruct (form request !! "email") as [email|] eqn:He; simp_handler.
  - destruct H as [H|H]; [discriminate|]. rewrite H. simp_handler.
    eexists; reflexivity.
  - eexists; reflexivity.
Qed.

Lemma login_missing_field_witness :
  exists key,
    run (login servidor "POST" (busca "x")) porta
    = (Raise (BadRequestKeyError key), porta).
Proof. apply login_missing_field. left. reflexivity. Defined.

(** X12: once a user is logged in, the entry route sends them to the
    dashboard and the dashboard is rendered; after logout, every
    protected route and the entry route send them to login again. *)
Theorem session_lifecycle (env : Env) (w : World) :
  logged_in w ->
  run index w = (Return (redirect (url_for "dashboard" None)), w)
  /\ run dashboard w = (Return (render_template "dashboard.html" NoContext), w)
  /\ (run index (run logout w).2).1 = Return (redirect (url_for "login" None))
  /\ (forall r, (run (dispatch env r) (run logout w).2).1
                = Return (redirect (url_for "login" None))).
Proof.
  intros [uid Hs]. repeat split.
  - unfold index. eval_handler. rewrite Hs. reflexivity.
  - unfold dashboard. eval_handler. rewrite Hs. reflexivity.
  - intros r. rewrite guard_rejects_anonymous; [reflexivity|].
    unfold logout. eval_handler. apply lookup_empty.
Qed.

Lemma session_lifecycle_witness :
  run index admin = (Return (redirect (url_for "dashboard" None)), admin)
  /\ run dashboard admin = (Return (render_template "dashboard.html" NoContext), admin)
  /\ (run index (run logout admin).2).1 = Return (redirect (url_for "login" None))
  /\ (forall r, (run (dispatch servidor r) (run logout admin).2).1
                = Return (redirect (url_for "login" None))).
Proof. apply session_lifecycle. exists (VInt 1). reflexivity. Defined.

(** ** The part catalog *)

Lemma insert_sorted_perm {A} (leb : A -> A -> bool) (x : A) (l : list A) :
  insert_sorted leb x l ≡ₚ x :: l.
Proof.
  induction l as [|y l IH]; cbn; [reflexivity|].
  destruct (leb x y); [reflexivity|].
  rewrite IH. apply Permutation_swap.
Qed.

Lemma sort_by_perm {A} (leb : A -> A -> bool) (l : list A) :
  sort_by leb l ≡ₚ l.
Proof.
  unfold sort_by. induction l as [|x l IH]; cbn; [reflexivity|].
  rewrite insert_sorted_perm, IH. reflexivity.
Qed.

Lemma select_all_autopecas_elem (env : Env) (d : Database) (id : Z) (row : autopeca_row) :
  (id, row) ∈ select_all_autopecas env d <-> autopeca d !! id = Some row.
Proof.
  unfold select_all_autopecas. rewrite sort_by_perm. apply elem_of_map_to_list.
Qed.

Lemma select_all_autopecas_NoDup (env : Env) (d : Database) :
  NoDup (select_all_autopecas env d).
Proof.
  unfold select_all_autopecas. rewrite sort_by_perm. apply NoDup_map_to_list.
Qed.

(** X13: the list shows each part at most once, and shows a part of
    the table exactly when there is no search text or the text, between
    two [%], is LIKE its name or its serial number; listing flashes
    nothing and changes no table. *)
Theorem autopecas_lists_matches (env : Env) (request : Request) (w : World) :
  logged_in w ->
  connect env = ConnOk ->
  db_error env 0 = None ->
  let search := default "" (args request !! "search") in
  let pattern := "%" +:+ search +:+ "%" in
  exists l w',
    run (autopecas env request) w
    = (Return (render_template "autopecas.html" (CtxAutopecas l search)), w')
    /\ NoDup l
    /\ (forall id row,
          (id, row) ∈ l <->
          autopeca (db w) !! id = Some row
          /\ (search = ""
              \/ sql_like env pattern (NOME_PECA row) = true
              \/ sql_like env pattern (NUM_SERIAL row) = true))
    /\ flashes w' = flashes w
    /\ db w' = db w.
Proof.
  intros [uid Hs] Hc He. cbn zeta.
  unfold autopecas. eval_handler. step Hs. step Hc.
  destruct (String.eqb_spec (default "" (args request !! "search")) "") as [Hq|Hq];
    simp_handler; step He.
  - do 2 eexists. split; [reflexivity|]. cbn.
    split; [apply select_all_autopecas_NoDup|].
    split; [|auto]. intros id row. rewrite select_all_autopecas_elem. tauto.
  - do 2 eexists. split; [reflexivity|]. cbn.
    unfold select_autopecas_like.
    split; [apply NoDup_ListNoDup, List.NoDup_filter, NoDup_ListNoDup,
                  select_all_autopecas_NoDup|].
    split; [|auto]. intros id row.
    rewrite list_elem_of_In, filter_In, <- list_elem_of_In,
      select_all_autopecas_elem, orb_true_iff. cbn. tauto.
Qed.

Lemma autopecas_lists_matches_witness :
  let search := default "" (args (busca "Filtro") !! "search") in
  let pattern := "%" +:+ search +:+ "%" in
  exists l w',
    run (autopecas servidor (busca "Filtro")) admin
    = (Return (render_template "autopecas.html" (CtxAutopecas l search)), w')
    /\ NoDup l
    /\ (forall id row,
          (id, row) ∈ l <->
          autopeca (db admin) !! id = Some row
          /\ (search = ""
              \/ sql_like servidor pattern (NOME_PECA row) = true
              \/ sql_like servidor pattern (NUM_SERIAL row) = true))
    /\ flashes w' = flashes admin
    /\ db w' = db admin.
Proof.
  apply (autopecas_lists_matches servidor (busca "Filtro") admin);
    [exists (VInt 1)| |]; reflexivity.
Defined.

(** X14: read-for-edit of an existing part whose row cannot be read,
    because the connection or the query fails, answers as if the part did
    not exist: the error and then "not found" are flashed and the user is
    sent to the list. *)
Theorem edit_autopeca_unavailable (env : Env) (id : Z) (w : World) :
  logged_in w ->
  connect env <> ConnOk \/ db_error env 0 <> None ->
  exists e w',
    run (edit_autopeca env id) w
    = (Return (redirect (url_for "autopecas" None)), w')
    /\ flashes w' = flashes w ++ [(e, "error"); ("Autopeça não encontrada!", "error")]
    /\ db w' = db w.
Proof.
  intros [uid Hs] Hfail.
  unfold edit_autopeca. eval_handler. step Hs.
  destruct (connect env) as [| e | e]; simp_handler.
  - destruct Hfail as [Hfail|Hfail]; [congruence|].
    destruct (db_error env 0) as [e|]; [|congruence]. simp_handler.
    do 2 eexists. split; [reflexivity|]. cbn.
    rewrite <- app_assoc. auto.
  - do 2 eexists. split; [reflexivity|]. cbn. rewrite <- app_assoc. auto.
  - do 2 eexists. split; [reflexivity|]. cbn. rewrite <- app_assoc. auto.
Qed.

Lemma edit_autopeca_unavailable_witness :
  exists e w',
    run (edit_autopeca servidor_fora 1) admin
    = (Return (redirect (url_for "autopecas" None)), w')
    /\ flashes w' = flashes admin ++ [(e, "error"); ("Autopeça não encontrada!", "error")]
    /\ db w' = db admin.
Proof.
  apply edit_autopeca_unavailable; [exists (VInt 1); reflexivity|].
  left. discriminate.
Defined.

Lemma edit_autopeca_found (env : Env) (id : Z) (w : World) (a : autopeca_row) :
  logged_in w -> connect env = ConnOk -> db_error env 0 = None ->
  autopeca (db w) !! id = Some a ->
  (run (edit_autopeca env id) w).1
  = Return (render_template "edit_autopeca.html" (CtxEdit (id, a)))
  /\ db (run (edit_autopeca env id) w).2 = db w
  /\ flashes (run (edit_autopeca env id) w).2 = flashes w.
Proof.
  intros [uid Hs] Hc He Ha.
  unfold edit_autopeca. eval_handler. step Hs. step Hc. step He. step Ha.
  auto.
Qed.

Section Catalogo.

Variables (env : Env) (request : Request) (w : World) (id : Z).
Variables (nome_peca descricao num_serie compatibilidade : string).
Variables (sestoque sminimo spreco : string).
Variables (estoque estoque_minimo : Z) (preco : Py.pyfloat).

(** A logged-in user submits a form that passes every check, with a
    price that is a finite number. *)
Hypothesis Hlogged : logged_in w.
Hypothesis Hnome : form request !! "nome_peca" = Some nome_peca.
Hypothesis Hdescricao : form request !! "descricao" = Some descricao.
Hypothesis Hserie : form request !! "num_serie" = Some num_serie.
Hypothesis Hcompat : form request !! "compatibilidade" = Some compatibilidade.
Hypothesis Hestoque : form request !! "estoque" = Some sestoque.
Hypothesis Hminimo : form request !! "estoque_minimo" = Some sminimo.
Hypothesis Hpreco : form request !! "preco" = Some spreco.
Hypothesis Hestoque_int : Py.py_int (python env) sestoque = inr estoque.
Hypothesis Hminimo_int : Py.py_int (python env) sminimo = inr estoque_minimo.
Hypothesis Hpreco_float : Py.py_float (python env) spreco = inr preco.
Hypothesis Hestoque_ok : 0 <= estoque.
Hypothesis Hminimo_ok : 0 <= estoque_minimo.
Hypothesis Hpreco_ok : Py.float_le_zero preco = false.
Hypothesis Hpreco_finite : Py.float_is_finite preco = true.
Hypothesis Hconnect : connect env = ConnOk.

Local Abbreviation nova :=
  (submitted_row nome_peca descricao num_serie compatibilidade
     estoque estoque_minimo preco).

Ltac submit :=
  destruct Hlogged as [uid Hs]; eval_handler;
  step Hs; step Hnome; step Hdescricao; step Hserie; step Hcompat;
  step Hestoque; step Hestoque_int; step Hminimo; step Hminimo_int;
  step Hpreco; step Hpreco_float;
  replace (estoque <? 0) with false by (symmetry; apply Z.ltb_ge; lia);
  replace (estoque_minimo <? 0) with false by (symmetry; apply Z.ltb_ge; lia);
  simp_handler; step Hpreco_ok; step Hconnect; step Hpreco_finite.

(** What a valid create does when the server answers. *)
Lemma add_autopeca_valid :
  quiet env ->
  autopeca (db w) !! autopeca_auto_increment (db w) = None ->
  exists w',
    run (add_autopeca env request) w
    = (Return (redirect (url_for "autopecas" None)), w')
    /\ db w' = set_autopeca
                 (<[autopeca_auto_increment (db w) := nova]> (autopeca (db w)))
                 (autopeca_auto_increment (db w) + 1) (db w)
    /\ session w' = session w
    /\ flashes w' = flashes w ++ [("Autopeça adicionada com sucesso!", "success")].
Proof.
  intros Hq Hfree. unfold quiet in Hq.
  unfold add_autopeca, insert_autopeca. submit.
  step Hq. step Hfree. repeat step Hq.
  eexists. split; [reflexivity|]. cbn. auto.
Qed.

(** X15: a valid create (stock and minimum not negative, price
    positive and finite), answered by the server, adds exactly one row,
    under the next identifier and with exactly the submitted values;
    every other row stays, the success message is flashed and the user is
    sent to the list. *)
Theorem add_autopeca_stores_submission :
  quiet env ->
  autopeca (db w) !! autopeca_auto_increment (db w) = None ->
  exists w',
    run (add_autopeca env request) w
    = (Return (redirect (url_for "autopecas" None)), w')
    /\ autopeca (db w')
       = <[autopeca_auto_increment (db w) := nova]> (autopeca (db w))
    /\ autopeca_auto_increment (db w') = autopeca_auto_increment (db w) + 1
    /\ movimentacoes (db w') = movimentacoes (db w)
    /\ flashes w' = flashes w ++ [("Autopeça adicionada com sucesso!", "success")].
Proof.
  intros Hq Hfree.
  destruct (add_autopeca_valid Hq Hfree) as (w' & Hrun & Hdb & _ & Hfl).
  exists w'. rewrite Hdb. cbn. auto.
Qed.

(** X16: after a valid create the edit form of the new identifier is
    rendered with exactly the submitted values. *)
Theorem add_then_edit :
  quiet env ->
  autopeca (db w) !! autopeca_auto_increment (db w) = None ->
  (run (edit_autopeca env (autopeca_auto_increment (db w)))
       (run (add_autopeca env request) w).2).1
  = Return (render_template "edit_autopeca.html"
              (CtxEdit (autopeca_auto_increment (db w), nova))).
Proof.
  intros Hq Hfree.
  destruct (add_autopeca_valid Hq Hfree) as (w' & Hrun & Hdb & Hse & _).
  rewrite Hrun. cbn [snd].
  apply edit_autopeca_found; auto.
  - unfold logged_in. rewrite Hse. exact Hlogged.
  - rewrite Hdb. cbn. apply lookup_insert_eq.
Qed.

(** X17: a valid update of an existing part, answered by the server,
    replaces every column of that row by the submitted values and leaves
    the other rows alone. *)
Theorem update_autopeca_overwrites (old : autopeca_row) :
  quiet env ->
  autopeca (db w) !! id = Some old ->
  exists w',
    run (update_autopeca env request id) w
    = (Return (redirect (url_for "autopecas" None)), w')
    /\ autopeca (db w') = <[id := nova]> (autopeca (db w))
    /\ movimentacoes (db w') = movimentacoes (db w)
    /\ flashes w' = flashes w ++ [("Autopeça atualizada com sucesso!", "success")].
Proof.
  intros Hq Hold. unfold quiet in Hq.
  unfold update_autopeca, update_autopeca_row. submit.
  step Hq. step Hold. repeat step Hq.
  eexists. split; [reflexivity|]. cbn. auto.
Qed.

(** X18: a valid update of an identifier that is not in the table
    changes nothing and still reports success: the handler does not look
    at how many rows the statement changed. *)
Theorem update_autopeca_missing_id :
  quiet env ->
  autopeca (db w) !! id = None ->
  exists w',
    run (update_autopeca env request id) w
    = (Return (redirect (url_for "autopecas" None)), w')
    /\ db w' = db w
    /\ flashes w' = flashes w ++ [("Autopeça atualizada com sucesso!", "success")].
Proof.
  intros Hq Hnone. unfold quiet in Hq.
  unfold update_autopeca, update_autopeca_row. submit.
  step Hq. step Hnone. repeat step Hq.
  eexists. split; [reflexivity|]. cbn. auto.
Qed.

(** X19: when the server rejects the statement of an otherwise valid
    create or update, the error is flashed, no table changes, and the
    user is sent to the list like after a success. *)
Theorem write_failure_is_reported (e : string) :
  db_error env 0 = Some e ->
  (exists w',
      run (add_autopeca env request) w
      = (Return (redirect (url_for "autopecas" None)), w')
      /\ db w' = db w
      /\ flashes w' = flashes w ++ [("Erro ao adicionar autopeça: " +:+ e, "error")])
  /\ (exists w',
      run (update_autopeca env request id) w
      = (Return (redirect (url_for "autopecas" None)), w')
      /\ db w' = db w
      /\ flashes w' = flashes w ++ [("Erro ao atualizar autopeça: " +:+ e, "error")]).
Proof.
  intros He. split.
  - unfold add_autopeca. submit. step He.
    eexists. split; [reflexivity|]. cbn. auto.
  - unfold update_autopeca. submit. step He.
    eexists. split; [reflexivity|]. cbn. auto.
Qed.

End Catalogo.

(** The catalog statements at concrete submissions by the administrator. *)

Lemma add_autopeca_stores_submission_witness :
  exists w',
    run (add_autopeca servidor (cadastro "3" "1" "12.50")) admin
    = (Return (redirect (url_for "autopecas" None)), w')
    /\ autopeca (db w')
       = <[autopeca_auto_increment (db admin) :=
             submitted_row "Vela" "Vela de ignicao" "VI-002" "Uno" 3 1
               (Py.FFinite false 7036874417766400 (-49))]> (autopeca (db admin))
    /\ autopeca_auto_increment (db w') = autopeca_auto_increment (db admin) + 1
    /\ movimentacoes (db w') = movimentacoes (db admin)
    /\ flashes w' = flashes admin ++ [("Autopeça adicionada com sucesso!", "success")].
Proof.
  apply (add_autopeca_stores_submission servidor (cadastro "3" "1" "12.50") admin
           "Vela" "Vela de ignicao" "VI-002" "Uno" "3" "1" "12.50" 3 1 (Py.FFinite false 7036874417766400 (-49)));
    try reflexivity; try (cbn; lia).
  - exists (VInt 1). reflexivity.
  - intros k. reflexivity.
Defined.

Lemma add_then_edit_witness :
  (run (edit_autopeca servidor (autopeca_auto_increment (db admin)))
       (run (add_autopeca servidor (cadastro "3" "1" "12.50")) admin).2).1
  = Return (render_template "edit_autopeca.html"
              (CtxEdit (autopeca_auto_increment (db admin),
                        submitted_row "Vela" "Vela de ignicao" "VI-002" "Uno" 3 1
                          (Py.FFinite false 7036874417766400 (-49))))).
Proof.
  apply (add_then_edit servidor (cadastro "3" "1" "12.50") admin
           "Vela" "Vela de ignicao" "VI-002" "Uno" "3" "1" "12.50" 3 1 (Py.FFinite false 7036874417766400 (-49)));
    try reflexivity; try (cbn; lia).
  - exists (VInt 1). reflexivity.
  - intros k. reflexivity.
Defined.

Lemma update_autopeca_overwrites_witness :
  exists w',
    run (update_autopeca servidor (edicao "8" "2" "35") 1) admin
    = (Return (redirect (url_for "autopecas" None)), w')
    /\ autopeca (db w')
       = <[1 := submitted_row "Filtro de ar" "Filtro" "FA-009" "Palio" 8 2
                  (Py.FFinite false 4925812092436480 (-47))]> (autopeca (db admin))
    /\ movimentacoes (db w') = movimentacoes (db admin)
    /\ flashes w' = flashes admin ++ [("Autopeça atualizada com sucesso!", "success")].
Proof.
  eapply (update_autopeca_overwrites servidor (edicao "8" "2" "35") admin 1
           "Filtro de ar" "Filtro" "FA-009" "Palio" "8" "2" "35" 8 2 (Py.FFinite false 4925812092436480 (-47)));
    try reflexivity; try (cbn; lia).
  - exists (VInt 1). reflexivity.
  - intros k. reflexivity.
Defined.

Lemma update_autopeca_missing_id_witness :
  exists w',
    run (update_autopeca servidor (edicao "8" "2" "35") 42) admin
    = (Return (redirect (url_for "autopecas" None)), w')
    /\ db w' = db admin
    /\ flashes w' = flashes admin ++ [("Autopeça atualizada com sucesso!", "success")].
Proof.
  apply (update_autopeca_missing_id servidor (edicao "8" "2" "35") admin 42
           "Filtro de ar" "Filtro" "FA-009" "Palio" "8" "2" "35" 8 2 (Py.FFinite false 4925812092436480 (-47)));
    try reflexivity; try (cbn; lia).
  - exists (VInt 1). reflexivity.
  - intros k. reflexivity.
Defined.

Lemma write_failure_is_reported_witness :
  (exists w',
      run (add_autopeca (servidor_falha 0) (edicao "8" "2" "35")) admin
      = (Return (redirect (url_for "autopecas" None)), w')
      /\ db w' = db admin
      /\ flashes w' = flashes admin
           ++ [("Erro ao adicionar autopeça: " +:+ "(2013, Lost connection)", "error")])
  /\ (exists w',
      run (update_autopeca (servidor_falha 0) (edicao "8" "2" "35") 1) admin
      = (Return (redirect (url_for "autopecas" None)), w')
      /\ db w' = db admin
      /\ flashes w' = flashes admin
           ++ [("Erro ao atualizar autopeça: " +:+ "(2013, Lost connection)", "error")]).
Proof.
  eapply (write_failure_is_reported (servidor_falha 0) (edicao "8" "2" "35") admin 1
           "Filtro de ar" "Filtro" "FA-009" "Palio" "8" "2" "35" 8 2 (Py.FFinite false 4925812092436480 (-47)));
    try reflexivity; try (cbn; lia).
  exists (VInt 1). reflexivity.
Defined.

(** ** Deleting a part *)

Lemma delete_autopeca_done (env : Env) (id : Z) (w : World) :
  logged_in w -> connect env = ConnOk -> quiet env ->
  exists w',
    run (delete_autopeca env id) w
    = (Return (redirect (url_for "autopecas" None)), w')
    /\ db w' = delete_autopeca_row id (db w)
    /\ session w' = session w
    /\ flashes w' = flashes w ++ [("Autopeça excluída com sucesso!", "success")].
Proof.
  intros [uid Hs] Hc Hq. unfold quiet in Hq.
  unfold delete_autopeca. eval_handler. step Hs. step Hc. repeat step Hq.
  eexists. split; [reflexivity|]. cbn. auto.
Qed.

(** X20: a delete that the server carries out removes the row of that
    identifier and nothing else: the other parts and the movement history
    stay as they were. *)
Theorem delete_autopeca_removes_row (env : Env) (id : Z) (w : World) :
  logged_in w -> connect env = ConnOk -> quiet env ->
  exists w',
    run (delete_autopeca env id) w
    = (Return (redirect (url_for "autopecas" None)), w')
    /\ autopeca (db w') !! id = None
    /\ (forall id', id' <> id -> autopeca (db w') !! id' = autopeca (db w) !! id')
    /\ movimentacoes (db w') = movimentacoes (db w)
    /\ flashes w' = flashes w ++ [("Autopeça excluída com sucesso!", "success")].
Proof.
  intros Hl Hc Hq.
  destruct (delete_autopeca_done env id w Hl Hc Hq) as (w' & Hrun & Hdb & _ & Hfl).
  exists w'. rewrite Hdb. cbn. repeat split; auto.
  - apply lookup_delete_eq.
  - intros id' Hne. apply lookup_delete_ne. congruence.
Qed.

Lemma delete_autopeca_removes_row_witness :
  exists w',
    run (delete_autopeca servidor 1) admin
    = (Return (redirect (url_for "autopecas" None)), w')
    /\ autopeca (db w') !! 1 = None
    /\ (forall id', id' <> 1 -> autopeca (db w') !! id' = autopeca (db admin) !! id')
    /\ movimentacoes (db w') = movimentacoes (db admin)
    /\ flashes w' = flashes admin ++ [("Autopeça excluída com sucesso!", "success")].
Proof.
  apply delete_autopeca_removes_row;
    [exists (VInt 1); reflexivity | reflexivity | intros k; reflexivity].
Defined.

(** X21: after a delete that the server carries out, the edit form of
    the same identifier is no longer available: read-for-edit flashes
    "not found" and sends the user to the list. *)
Theorem delete_then_edit (env : Env) (id : Z) (w : World) :
  logged_in w -> connect env = ConnOk -> quiet env ->
  let w1 := (run (delete_autopeca env id) w).2 in
  exists w2,
    run (edit_autopeca env id) w1
    = (Return (redirect (url_for "autopecas" None)), w2)
    /\ last (flashes w2) = Some ("Autopeça não encontrada!", "error").
Proof.
  intros Hl Hc Hq. cbn zeta.
  destruct (delete_autopeca_done env id w Hl Hc Hq) as (w' & Hrun & Hdb & Hse & _).
  rewrite Hrun. cbn [snd].
  destruct Hl as [uid Hs]. rewrite <- Hse in Hs.
  assert (Hgone : autopeca (db w') !! id = None)
    by (rewrite Hdb; cbn; apply lookup_delete_eq).
  unfold edit_autopeca. eval_handler. step Hs. step Hc.
  unfold quiet in Hq. step Hq. step Hgone.
  eexists. split; [reflexivity|]. cbn. apply last_snoc.
Qed.

Lemma delete_then_edit_witness :
  let w1 := (run (delete_autopeca servidor 1) admin).2 in
  exists w2,
    run (edit_autopeca servidor 1) w1
    = (Return (redirect (url_for "autopecas" None)), w2)
    /\ last (flashes w2) = Some ("Autopeça não encontrada!", "error").
Proof.
  apply delete_then_edit;
    [exists (VInt 1); reflexivity | reflexivity | intros k; reflexivity].
Defined.

(** X22: when the server rejects the DELETE, for instance because
    movements refer to the part, the error is flashed and every table
    stays as it was. *)
Theorem delete_failure_keeps_part (env : Env) (id : Z) (w : World) (e : string) :
  logged_in w -> connect env = ConnOk -> db_error env 0 = Some e ->
  exists w',
    run (delete_autopeca env id) w
    = (Return (redirect (url_for "autopecas" None)), w')
    /\ db w' = db w
    /\ flashes w' = flashes w ++ [("Erro ao excluir autopeça: " +:+ e, "error")].
Proof.
  intros [uid Hs] Hc He.
  unfold delete_autopeca. eval_handler. step Hs. step Hc. step He.
  eexists. split; [reflexivity|]. cbn. auto.
Qed.

Lemma delete_failure_keeps_part_witness :
  exists w',
    run (delete_autopeca (servidor_falha 0) 1) admin
    = (Return (redirect (url_for "autopecas" None)), w')
    /\ db w' = db admin
    /\ flashes w' = flashes admin
         ++ [("Erro ao excluir autopeça: " +:+ "(2013, Lost connection)", "error")].
Proof.
  apply delete_failure_keeps_part;
    [exists (VInt 1); reflexivity | reflexivity | reflexivity].
Defined.

(** ** The stock view *)

(** X23: the stock view never shows more than ten movements, every
    movement it shows is a recorded one, joined with the name of its
    part, and every part it shows is a row of the table; when both
    queries are answered it shows every part.  It changes no table. *)
Theorem estoque_view (env : Env) (w : World) :
  logged_in w ->
  exists ps ms w',
    run (estoque env) w
    = (Return (render_template "estoque.html" (CtxEstoque ps ms)), w')
    /\ (length ms <= 10)%nat
    /\ (forall m nome usuario_nome,
          (m, nome, usuario_nome) ∈ ms ->
          m ∈ movimentacoes (db w)
          /\ exists a, autopeca (db w) !! m_ID_PECA m = Some a /\ NOME_PECA a = nome)
    /\ (forall id row, (id, row) ∈ ps -> autopeca (db w) !! id = Some row)
    /\ (connect env = ConnOk -> db_error env 0 = None ->
        forall id row, autopeca (db w) !! id = Some row -> (id, row) ∈ ps)
    /\ db w' = db w.
Proof.
  intros [uid Hs].
  assert (Hms : forall m nome un,
             (m, nome, un) ∈ select_recent_movimentacoes env (db w) ->
             m ∈ movimentacoes (db w)
             /\ exists a, autopeca (db w) !! m_ID_PECA m = Some a /\ NOME_PECA a = nome).
  { intros m nome un Hin. unfold select_recent_movimentacoes in Hin.
    apply subseteq_take in Hin. rewrite sort_by_perm in Hin.
    apply list_elem_of_omap in Hin as (m0 & Hm0 & Hj).
    unfold join_movimentacao in Hj.
    destruct (autopeca (db w) !! m_ID_PECA m0) as [a|] eqn:Ha; cbn in Hj;
      [|discriminate].
    destruct (match m_ID_USUARIO m0 with VInt uid0 => usuario (db w) !! uid0
                                     | VStr _ => None end) as [u|];
      cbn in Hj; [|discriminate].
    injection Hj as <- <- <-. eauto. }
  assert (Hlen : (length (select_recent_movimentacoes env (db w)) <= 10)%nat).
  { unfold select_recent_movimentacoes. rewrite length_take. lia. }
  unfold estoque. eval_handler. step Hs.
  destruct (connect env) as [| e | e]; simp_handler.
  - destruct (db_error env 0) as [e|]; simp_handler.
    + do 3 eexists. split; [reflexivity|]. cbn.
      repeat split; try (intros; discriminate); try lia;
        intros; match goal with H : _ ∈ [] |- _ => inversion H end.
    + destruct (db_error env 1) as [e|]; simp_handler.
      * do 3 eexists. split; [reflexivity|]. cbn.
        repeat split; try lia.
        -- intros; match goal with H : _ ∈ [] |- _ => inversion H end.
        -- intros; match goal with H : _ ∈ [] |- _ => inversion H end.
        -- intros id row. apply select_all_autopecas_elem.
        -- intros _ _ id row. apply select_all_autopecas_elem.
      * do 3 eexists. split; [reflexivity|]. cbn.
        split; [exact Hlen|]. split; [exact Hms|].
        repeat split.
        -- intros id row. apply select_all_autopecas_elem.
        -- intros _ _ id row. apply select_all_autopecas_elem.
  - do 3 eexists. split; [reflexivity|]. cbn.
    repeat split; try (intros; discriminate); try lia;
      intros; match goal with H : _ ∈ [] |- _ => inversion H end.
  - do 3 eexists. split; [reflexivity|]. cbn.
    repeat split; try (intros; discriminate); try lia;
      intros; match goal with H : _ ∈ [] |- _ => inversion H end.
Qed.

Lemma estoque_view_witness :
  exists ps ms w',
    run (estoque servidor) admin
    = (Return (render_template "estoque.html" (CtxEstoque ps ms)), w')
    /\ (length ms <= 10)%nat
    /\ (forall m nome usuario_nome,
          (m, nome, usuario_nome) ∈ ms ->
          m ∈ movimentacoes (db admin)
          /\ exists a, autopeca (db admin) !! m_ID_PECA m = Some a /\ NOME_PECA a = nome)
    /\ (forall id row, (id, row) ∈ ps -> autopeca (db admin) !! id = Some row)
    /\ (connect servidor = ConnOk -> db_error servidor 0 = None ->
        forall id row, autopeca (db admin) !! id = Some row -> (id, row) ∈ ps)
    /\ db w' = db admin.
Proof. apply estoque_view. exists (VInt 1). reflexivity. Defined.

(** ** More on movements *)


(** X24: a movement request changes, of the parts table, at most the
    stock column of the part that the interpreter reads from [id_peca]:
    no part is created or removed, no other column and no other row is
    touched, in every environment. *)
Theorem movement_touches_only_stock (env : Env) (request : Request) (w : World) :
  let w' := (run (add_movimentacao env request) w).2 in
  autopeca_auto_increment (db w') = autopeca_auto_increment (db w)
  /\ forall id,
       autopeca (db w') !! id = autopeca (db w) !! id
       \/ (exists sid row row',
             form request !! "id_peca" = Some sid
             /\ Py.py_int (python env) sid = inr id
             /\ autopeca (db w) !! id = Some row
             /\ autopeca (db w') !! id = Some row'
             /\ NOME_PECA row' = NOME_PECA row
             /\ DESCRICAO row' = DESCRICAO row
             /\ ESTOQUE_MINIMO row' = ESTOQUE_MINIMO row
             /\ NUM_SERIAL row' = NUM_SERIAL row
             /\ COMPATIBILIDADE row' = COMPATIBILIDADE row
             /\ PRECO row' = PRECO row).
Proof.
  unfold add_movimentacao, update_estoque, insert_movimentacao.
  eval_handler. all_paths; (split; [reflexivity|]); intros k; auto.
  all: rewrite lookup_alter; case_decide; [subst k|left; reflexivity].
  all: right;
    match goal with
    | H : autopeca _ !! _ = Some ?a |- _ =>
        rewrite H; do 3 eexists; repeat split; eauto
    end.
Qed.

Section Movimentacoes.

Variables (env : Env) (request : Request) (w : World).
Variables (uid : pyval) (sid sq tipo : string) (id_peca quantidade : Z).

Hypothesis Hsession : session w !! "user_id" = Some uid.
Hypothesis Hid : form request !! "id_peca" = Some sid.
Hypothesis Hid_int : Py.py_int (python env) sid = inr id_peca.
Hypothesis Hquantidade : form request !! "quantidade" = Some sq.
Hypothesis Hquantidade_int : Py.py_int (python env) sq = inr quantidade.
Hypothesis Htipo : form request !! "tipo_movimentacao" = Some tipo.

Ltac submit :=
  unfold add_movimentacao; eval_handler;
  step Hsession; step Hid; step Hid_int; step Hquantidade;
  step Hquantidade_int; step Htipo.

(** X25: a movement on an identifier that is not in the parts table
    writes nothing, whatever the direction, the quantity and the
    environment; when the SELECT is answered "not found" is flashed. *)
Theorem movement_on_missing_part :
  autopeca (db w) !! id_peca = None ->
  exists w',
    run (add_movimentacao env request) w
    = (Return (redirect (url_for "estoque" None)), w')
    /\ db w' = db w
    /\ (connect env = ConnOk -> db_error env 0 = None ->
        flashes w' = flashes w ++ [("Autopeça não encontrada!", "error")]).
Proof.
  intros Hnone. submit.
  destruct (connect env) as [| e | e]; simp_handler.
  - destruct (db_error env 0) as [e|]; simp_handler.
    + eexists. split; [reflexivity|]. split; [reflexivity|]. discriminate.
    + step Hnone. eexists. split; [reflexivity|]. cbn. auto.
  - eexists. split; [reflexivity|]. split; [reflexivity|]. discriminate.
  - eexists. split; [reflexivity|]. split; [reflexivity|]. discriminate.
Qed.

Variable autopeca_atual : autopeca_row.
Hypothesis Hpeca : autopeca (db w) !! id_peca = Some autopeca_atual.
Hypothesis Hconnect : connect env = ConnOk.
Hypothesis Hselect : db_error env 0 = None.
Hypothesis Hvalid :
  entrada env tipo = true \/ 0 <= ESTOQUE autopeca_atual - quantidade.

Local Abbreviation registro :=
  {| m_ID_USUARIO := uid; m_ID_PECA := id_peca;
     DATA_MOVI := data_de env request; QUANTIDADE := quantidade;
     TIPO_MOVI := Py.py_upper (python env) tipo |}.




(** X28: a movement of quantity zero is accepted like any other: a row
    is added to the history and the part keeps its stock. *)
Theorem movement_of_zero :
  quiet env ->
  quantidade = 0 ->
  exists w' m,
    run (add_movimentacao env request) w
    = (Return (redirect (url_for "estoque" None)), w')
    /\ movimentacoes (db w') = movimentacoes (db w) ++ [m]
    /\ QUANTIDADE m = 0
    /\ autopeca (db w') !! id_peca = Some autopeca_atual.
Proof.
  intros Hq H0.
  destruct (add_movimentacao_written env request w uid sid sq tipo id_peca
              quantidade autopeca_atual) as (w' & Hrun & Hdb & _); auto.
  exists w', registro. rewrite Hdb. cbn. repeat split; auto.
  rewrite lookup_alter_eq, Hpeca. cbn. f_equal.
  unfold novo_estoque_de. subst quantidade.
  destruct (entrada env tipo); rewrite ?Z.add_0_r, ?Z.sub_0_r;
    destruct autopeca_atual; reflexivity.
Qed.

End Movimentacoes.

Lemma movement_on_missing_part_witness :
  exists w',
    run (add_movimentacao servidor (movimento_peca "9" "5" "ENTRADA")) admin
    = (Return (redirect (url_for "estoque" None)), w')
    /\ db w' = db admin
    /\ (connect servidor = ConnOk -> db_error servidor 0 = None ->
        flashes w' = flashes admin ++ [("Autopeça não encontrada!", "error")]).
Proof.
  apply (movement_on_missing_part servidor (movimento_peca "9" "5" "ENTRADA")
           admin (VInt 1) "9" "5" "ENTRADA" 9 5); reflexivity.
Defined.


Example orphan_movement :
  let w' := (run (add_movimentacao (servidor_falha 2) (movimento "5" "ENTRADA")) admin).2 in
  length (movimentacoes (db w')) = 1%nat
  /\ ESTOQUE <$> autopeca (db w') !! 1 = Some 10.
Proof. vm_compute. auto. Qed.


Lemma movement_of_zero_witness :
  exists w' m,
    run (add_movimentacao servidor (movimento "0" "SAIDA")) admin
    = (Return (redirect (url_for "estoque" None)), w')
    /\ movimentacoes (db w') = movimentacoes (db admin) ++ [m]
    /\ QUANTIDADE m = 0
    /\ autopeca (db w') !! 1 = Some filtro.
Proof.
  apply (movement_of_zero servidor (movimento "0" "SAIDA") admin
           (VInt 1) "1" "0" "SAIDA" 1 0 eq_refl eq_refl eq_refl eq_refl eq_refl
           eq_refl filtro eq_refl eq_refl).
  - right. cbn. lia.
  - intros k. reflexivity.
  - reflexivity.
Defined.



(** ** Requests that lack a field *)

(** X7: a request that lacks one of the form fields its route reads
    never reaches the database: no connection is opened, nothing is
    executed and no table changes, in every environment. *)
Theorem missing_field_never_reaches_database (env : Env) (r : Route) (w : World) :
  (exists key, key ∈ required_fields r /\ route_form r !! key = None) ->
  let w' := (run (serve env r) w).2 in
  trace w' = trace w /\ db w' = db w.
Proof.
  intros (key & Hin & Hnone).
  destruct r as [| method request | | []]; cbn [required_fields route_form] in *;
    try (apply elem_of_nil in Hin; contradiction);
    cbn [serve dispatch]; unfold_routes; eval_handler; all_paths;
    try (split; reflexivity);
    exfalso;
    repeat (apply elem_of_cons in Hin as [-> | Hin]; [congruence|]);
    apply elem_of_nil in Hin; exact Hin.
Qed.

Lemma missing_field_never_reaches_database_witness :
  let w' := (run (serve servidor
                    (RProtected (RAddMovimentacao
                       {| form := {[ "id_peca" := "1"; "quantidade" := "5" ]};
                          args := ∅ |}))) admin).2 in
  trace w' = trace admin /\ db w' = db admin.
Proof.
  apply missing_field_never_reaches_database.
  exists "tipo_movimentacao". split; [|reflexivity].
  cbn. do 2 right. left.
Defined.

(** ** The stock invariant *)

Lemma only_nonneg_writes_keeps (t t' : gmap Z autopeca_row) :
  only_nonneg_writes t t' -> stock_nonneg t -> stock_nonneg t'.
Proof.
  intros Hw Ht id row Hrow. destruct (Hw id row Hrow) as [H|H]; [|exact H].
  exact (Ht id row H).
Qed.

Lemma movement_stock_nonneg (env : Env) (request : Request) (w : World) :
  stock_nonneg (autopeca (db w)) ->
  inbound_quantity_nonneg env (RAddMovimentacao request) ->
  stock_nonneg (autopeca (db (run (add_movimentacao env request) w).2)).
Proof.
  intros Hinv Hin. cbn in Hin. unfold entrada in Hin.
  unfold add_movimentacao, update_estoque, insert_movimentacao.
  eval_handler. all_paths; try exact Hinv.
  all: intros k row; rewrite lookup_alter;
    case_decide; [subst k | apply Hinv].
  all: match goal with
       | H : autopeca _ !! _ = Some _ |- _ =>
           rewrite H; pose proof (Hinv _ _ H)
       end; cbn; intros [= <-]; cbn.
  all: first [ apply Z.ltb_ge; assumption
             | match goal with
               | Hb : String.eqb (Py.py_upper (python _) ?t) "ENTRADA" = true,
                 Hi : Py.py_int _ ?s = inr ?q |- 0 <= _ + ?q =>
                   pose proof (Hin t s q eq_refl Hb eq_refl Hi); lia
               end ].
Qed.

(** X8: no protected route makes a stock negative, provided an
    inbound movement asks for a quantity that is not negative: when every
    part has a non-negative stock before a request, every part has one
    after it, in every environment. *)
Theorem stock_stays_nonneg (env : Env) (r : ProtectedRoute) (w : World) :
  stock_nonneg (autopeca (db w)) ->
  inbound_quantity_nonneg env r ->
  stock_nonneg (autopeca (db (run (dispatch env r) w).2)).
Proof.
  intros Hinv Hin. destruct r; cbn [dispatch].
  - unfold dashboard. eval_handler. all_paths; exact Hinv.
  - unfold autopecas. eval_handler. all_paths; exact Hinv.
  - eapply only_nonneg_writes_keeps; [apply add_autopeca_stock_nonneg | exact Hinv].
  - unfold edit_autopeca. eval_handler. all_paths; exact Hinv.
  - eapply only_nonneg_writes_keeps; [apply update_autopeca_stock_nonneg | exact Hinv].
  - unfold delete_autopeca, delete_autopeca_row. eval_handler.
    all_paths; try exact Hinv.
    all: intros k row Hrow; apply lookup_delete_Some in Hrow as [_ Hrow];
      exact (Hinv _ _ Hrow).
  - unfold estoque. eval_handler. all_paths; exact Hinv.
  - apply movement_stock_nonneg; assumption.
Qed.

Lemma stock_stays_nonneg_witness :
  stock_nonneg (autopeca (db (run (dispatch servidor
                                     (RAddMovimentacao (movimento "5" "ENTRADA")))
                                  admin).2)).
Proof.
  apply stock_stays_nonneg.
  - intros id row Hrow. cbn in Hrow.
    apply lookup_singleton_Some in Hrow as [_ <-]. cbn. lia.
  - cbn. intros tipo sq q Ht He Hq Hi.
    vm_compute in Hq. injection Hq as <-.
    vm_compute in Hi. injection Hi as <-. lia.
Defined.
